(** * IRIS web: authorization-gated IOC / task operations

    A shallow embedding of
      - [app/business/iocs.py]                        (business layer),
      - [app/blueprints/rest/v2/cases/iocs.py]        (REST, case IOCs),
      - [app/blueprints/rest/v2/case/api_v2_case_tasks_routes.py] (REST, tasks),
      - [app/blueprints/rest/v2/cases/__init__.py]    (REST, cases),
      - [app/blueprints/rest/v2/dashboard/__init__.py] (REST, dashboard),
      - [app/blueprints/rest/overview_routes.py]      (REST, overview),
    as computations in a state-and-exception monad over a world made of the
    persisted rows, the pending ORM instance and a chronological journal of
    the effects performed on the collaborators (hooks, access checks,
    persistence, activity tracking, logging). *)

From stdpp Require Import base option list gmap strings pretty.
From Stdlib Require Import Ascii.

Local Open Scope Z_scope.
Local Open Scope string_scope.
Local Open Scope list_scope.

(** ** Plain data *)

(** JSON values as they travel in request bodies and response payloads. *)
#[local] Unset Elimination Schemes.
Inductive Json :=
| JNull
| JBool (b : bool)
| JInt (n : Z)
| JStr (s : string)
| JList (l : list Json)
| JDict (fields : list (string * Json)).
#[local] Set Elimination Schemes.

(** A Python [dict] keyed by strings (a request body, a hook payload). *)
Abbreviation Dict := (gmap string Json).

(** [marshmallow]'s [ValidationError.messages]: field name to messages. *)
Abbreviation FieldErrors := (list (string * list string)).

(** The double quote used inside the activity messages. *)
Definition dquote : string :=
  String (Ascii.Ascii false true false false false true false false) EmptyString.

Definition quoted (s : string) : string := dquote +:+ s +:+ dquote.

(** [app.models.Ioc]: the columns the sources read or filter on. *)
Module Ioc.
Record t := mk {
  ioc_id : Z;
  ioc_uuid : string;
  ioc_value : string;
  ioc_type_id : Z;
  ioc_description : string;
  ioc_tlp_id : Z;
  ioc_tags : string;
  ioc_misp : string;
  user_id : Z;
  case_id : Z
}.

Definition set_ioc_id (n : Z) (i : t) : t :=
  mk n (ioc_uuid i) (ioc_value i) (ioc_type_id i) (ioc_description i)
     (ioc_tlp_id i) (ioc_tags i) (ioc_misp i) (user_id i) (case_id i).

Definition set_user_id (n : Z) (i : t) : t :=
  mk (ioc_id i) (ioc_uuid i) (ioc_value i) (ioc_type_id i) (ioc_description i)
     (ioc_tlp_id i) (ioc_tags i) (ioc_misp i) n (case_id i).

Definition set_case_id (n : Z) (i : t) : t :=
  mk (ioc_id i) (ioc_uuid i) (ioc_value i) (ioc_type_id i) (ioc_description i)
     (ioc_tlp_id i) (ioc_tags i) (ioc_misp i) (user_id i) n.

#[global] Instance eq_dec : EqDecision t.
Proof. solve_decision. Defined.

(** A freshly constructed instance, before any attribute is assigned. *)
Definition blank : t := mk 0 "" "" 0 "" 0 "" "" 0 0.
End Ioc.

(** [app.models.CaseTasks]: a task and the case that owns it. *)
Module Task.
Record t := mk {
  id : Z;
  task_case_id : Z;
  task_title : string
}.
End Task.

(** A row of the cases table as the cases list returns it. *)
Module Case.
Record t := mk {
  case_id : Z;
  case_name : string
}.
End Case.

(** [app.models.authorization.CaseAccessLevel], ordered
    [none < read_only < full_access]. *)
Inductive CaseAccessLevel := none | read_only | full_access.

(** ** Exceptions *)

(** The exception classes the sources raise or catch.  The optional data of
    a [BusinessProcessingError] is either the field messages of a
    validation failure or the exception it wraps. *)
Inductive Exn :=
| BusinessProcessingError (message : string) (data : option ErrData)
| ValidationError (messages : FieldErrors)
| ObjectNotFoundError
| RuntimeError (what : string)
with ErrData :=
| Messages (m : FieldErrors)
| Cause (e : Exn).

Definition get_message (e : Exn) : string :=
  match e with
  | BusinessProcessingError m _ => m
  | ValidationError _ => "ValidationError"
  | ObjectNotFoundError => "ObjectNotFoundError"
  | RuntimeError s => s
  end.

Definition get_data (e : Exn) : option ErrData :=
  match e with
  | BusinessProcessingError _ d => d
  | _ => None
  end.

Definition is_BusinessProcessingError (e : Exn) : bool :=
  match e with BusinessProcessingError _ _ => true | _ => false end.

Definition is_ValidationError (e : Exn) : bool :=
  match e with ValidationError _ => true | _ => false end.

Definition is_ObjectNotFoundError (e : Exn) : bool :=
  match e with ObjectNotFoundError => true | _ => false end.

(** ** The world *)

(** Effects on the collaborators, in the order they happen. *)
Inductive Event :=
| HookCalled (name : string)
| AccessChecked (caseid : Z) (levels : list CaseAccessLevel) (granted : bool)
| BusinessCalled (operation : string)
| IocInserted (ioc_id : Z)
| IocDeleted (ioc_id : Z)
| StateUpdated (caseid : Z)
| SessionCommitted
| ActivityTracked (message : string) (caseid : Z)
| Logged (level : string) (message : string)
| LoggedException (level : string) (e : Exn).

(** Committed rows. *)
Record Db := mkDb {
  iocs : gmap Z Ioc.t;
  tasks : gmap Z Task.t
}.

(** The committed rows, the ORM instance modified but not yet committed
    (primary key and attribute values), and the journal. *)
Record World := mkWorld {
  db : Db;
  dirty : option (Z * Ioc.t);
  journal : list Event
}.

Definition record (e : Event) (w : World) : World :=
  mkWorld (db w) (dirty w) (journal w ++ [e]).

(** The activity entries of a stretch of journal: message and case. *)
Definition activity_of (j : list Event) : list (string * Z) :=
  omap (λ e, match e with ActivityTracked m c => Some (m, c) | _ => None end) j.

(** Does an event change the committed rows? *)
Definition is_persistence (e : Event) : bool :=
  match e with
  | IocInserted _ | IocDeleted _ | SessionCommitted => true
  | _ => false
  end.

(** ** The monad: state that survives a raised exception *)

Inductive Outcome (A : Type) :=
| Returned (a : A)
| Raised (e : Exn).
Arguments Returned {A} a.
Arguments Raised {A} e.

Definition M (A : Type) : Type := World → Outcome A * World.

#[export] Instance M_ret : MRet M := λ A a w, (Returned a, w).

#[export] Instance M_bind : MBind M := λ A B f m w,
  match m w with
  | (Returned a, w') => f a w'
  | (Raised e, w') => (Raised e, w')
  end.

Definition raise {A} (e : Exn) : M A := λ w, (Raised e, w).

(** [try: body except: handler]; a handler answering [None] does not match
    the exception, which then propagates. *)
Definition try_except {A} (body : M A) (handler : Exn → option (M A)) : M A :=
  λ w, match body w with
       | (Returned a, w') => (Returned a, w')
       | (Raised e, w') =>
           match handler e with
           | Some h => h w'
           | None => (Raised e, w')
           end
       end.

Definition emit (e : Event) : M unit := λ w, (Returned (), record e w).

(** Lifting a collaborator's pure answer, which may be an exception. *)
Definition answer {A} (o : Outcome A) : M A := λ w, (o, w).

(** ** Collaborators outside the sources *)

(** Values a module hook may receive or hand back: Python is dynamically
    typed, and [call_modules_hook] is used on dicts, entities and bare
    identifiers alike. *)
Inductive PyVal :=
| PyNone
| PyInt (n : Z)
| PyDict (d : Dict)
| PyIoc (i : Ioc.t).

(** Python truthiness of such a value ([if ioc:]). *)
Definition truthy (v : PyVal) : bool :=
  match v with
  | PyNone => false
  | PyInt n => negb (Z.eqb n 0)
  | PyDict d => negb (Nat.eqb (size d) 0)
  | PyIoc _ => true
  end.

(** [flask_sqlalchemy]'s pagination object, as far as the handlers read it. *)
Module Pagination.
Record t (A : Type) := mk {
  items : list A;
  total : Z;
  pages : Z;
  page : Z;
  has_next : bool;
  next_num : Z
}.
Arguments mk {A}.
Arguments items {A}.
Arguments total {A}.
Arguments pages {A}.
Arguments page {A}.
Arguments has_next {A}.
Arguments next_num {A}.
End Pagination.

(** Keyword arguments of [get_filtered_iocs]. *)
Record IocsFilter := mkIocsFilter {
  f_caseid : Z;
  f_ioc_type_id : option Z;
  f_ioc_type : option string;
  f_ioc_tlp_id : option Z;
  f_ioc_value : option string;
  f_ioc_description : option string;
  f_ioc_tags : option string;
  f_page : Z;
  f_per_page : Z;
  f_sort_by : option string;
  f_sort_dir : string
}.

(** Keyword arguments of [get_filtered_cases]. *)
Record CasesFilter := mkCasesFilter {
  c_case_ids : option (list Z);
  c_case_customer_id : option string;
  c_case_name : option string;
  c_case_description : option string;
  c_case_classification_id : option Z;
  c_case_owner_id : option Z;
  c_case_opening_user_id : option Z;
  c_case_severity_id : option Z;
  c_case_state_id : option Z;
  c_case_soc_id : option string;
  c_start_open_date : option string;
  c_end_open_date : option string;
  c_search_value : string;
  c_page : Z;
  c_per_page : Z;
  c_current_user_id : Z;
  c_sort_by : option string;
  c_sort_dir : string;
  c_is_open : option bool
}.

(** Everything the modelled modules import from code that is not part of
    the sources, as the answers it gives during one request.

    The REST module calls [iocs_update] and [iocs_delete] with the entity
    it has fetched, and imports the task operations from
    [app.business.tasks]; the business module at hand takes an identifier
    instead, and the task module is absent.  The handlers therefore run the
    operations [business_*] below, which act on the committed rows only. *)
Record Env := mkEnv {
  (* the request and its user *)
  current_user_id : Z;
  request_get_json : Dict;
  args_int : string → option Z;
  args_str : string → option string;
  args_ids : string → option (list Z);
  args_bool : string → option bool;
  (* access control: the decision for the current user *)
  case_access : Z → list CaseAccessLevel → bool;
  (* module hooks: hook name, data, case *)
  module_hook : string → PyVal → option Z → Outcome PyVal;
  (* schema validation rules: payload, [partial] flag *)
  schema_errors : Dict → bool → FieldErrors;
  (* the IOC type table *)
  ioc_type_known : Z → bool;
  (* list queries *)
  get_filtered_iocs : IocsFilter → option (Pagination.t Ioc.t);
  get_filtered_cases : CasesFilter → option (Pagination.t Case.t);
  (* serialisation schemas *)
  dump_ioc : Ioc.t → Json;
  dump_task : Task.t → Json;
  dump_case : Case.t → Json;
  (* business operations as the REST module calls them *)
  business_iocs_update : Ioc.t → Dict → Db → Outcome (Ioc.t * string) * Db;
  business_iocs_delete : Ioc.t → Db → Outcome string * Db;
  business_tasks_create : Z → Dict → Db → Outcome (string * Task.t) * Db;
  business_tasks_delete : Task.t → Db → Outcome string * Db;
  (* module hooks given an entity: the attribute values of that very
     instance once the hook is done with it (hook name, instance, case) *)
  hook_edits_instance : string → Ioc.t → option Z → Ioc.t
}.

(** ** The business layer: [app/business/iocs.py] *)

Section Business.
Context (env : Env).

(** *** Collaborators, run in the monad *)

(** [call_modules_hook(hook_name, data, caseid)]: the registered handlers
    transform the data or abort; the call itself is journalled. *)
Definition call_modules_hook (hook_name : string) (data : PyVal)
    (caseid : option Z) : M PyVal :=
  emit (HookCalled hook_name);;
  answer (module_hook env hook_name data caseid).

(** What is pending in the session once a hook is done with an instance:
    the instance, if the hook changed an attribute of it. *)
Definition edited_session (pk : Z) (instance edited : Ioc.t)
    (pending : option (Z * Ioc.t)) : option (Z * Ioc.t) :=
  if decide (edited = instance) then pending else Some (pk, edited).

(** [call_modules_hook(hook_name, data=instance, caseid)] on an entity: the
    handlers receive the ORM instance itself, so besides what the call
    returns, the caller's instance is as the handlers left it. *)
Definition call_modules_hook_on_instance (hook_name : string)
    (instance : Ioc.t) (caseid : option Z) : M (PyVal * Ioc.t) :=
  emit (HookCalled hook_name);;
  let edited := hook_edits_instance env hook_name instance caseid in
  (λ w, (Returned (),
         mkWorld (db w)
                 (edited_session (Ioc.ioc_id instance) instance edited (dirty w))
                 (journal w)));;
  data ← answer (module_hook env hook_name (PyIoc instance) caseid);
  mret (data, edited).

(** [track_activity(message, caseid)].
    Modelled from the spec: the activity tracker is not part of the
    sources; "record(caseId, userId, message, timestamp): appends one
    immutable entry". *)
Definition track_activity (message : string) (caseid : Z) : M unit :=
  emit (ActivityTracked message caseid).

(** [check_ioc_type_id(type_id)]. *)
Definition check_ioc_type_id (type_id : Z) : M bool :=
  mret (ioc_type_known env type_id).

(** [get_ioc(identifier)]: the row stored under the primary key, if any.
    Modelled from the spec: the persistence port is not part of the
    sources; "fetch existing entity". *)
Definition get_ioc (identifier : Z) : M (option Ioc.t) :=
  λ w, (Returned (Ioc.set_ioc_id identifier <$> iocs (db w) !! identifier), w).

Definition fresh_ioc_id (rows : gmap Z Ioc.t) : Z :=
  1 + map_fold (λ k _ acc, Z.max k acc) 0 rows.

(** [add_ioc(ioc, user_id, caseid)]: insert under a fresh primary key and
    commit.  Modelled from the spec: "persist (insert)". *)
Definition add_ioc (ioc : Ioc.t) (user_id caseid : Z) : M (Ioc.t * bool) :=
  λ w,
    let n := fresh_ioc_id (iocs (db w)) in
    let row := Ioc.set_ioc_id n (Ioc.set_user_id user_id ioc) in
    (Returned (row, false),
     mkWorld (mkDb (<[n := row]> (iocs (db w))) (tasks (db w)))
             (dirty w) (journal w ++ [IocInserted n])).

(** [delete_ioc(ioc, caseid)]: remove the row and commit.
    Modelled from the spec: "persist (delete)". *)
Definition delete_ioc (ioc : Ioc.t) (caseid : Z) : M unit :=
  λ w,
    (Returned (),
     mkWorld (mkDb (delete (Ioc.ioc_id ioc) (iocs (db w))) (tasks (db w)))
             (dirty w) (journal w ++ [IocDeleted (Ioc.ioc_id ioc)])).

(** [update_ioc_state(caseid)]. *)
Definition update_ioc_state (caseid : Z) : M unit :=
  emit (StateUpdated caseid).

(** Assigning attributes of a fetched instance leaves it pending in the
    session under its primary key. *)
Definition set_pending (pk : Z) (i : Ioc.t) : M Ioc.t :=
  λ w, (Returned i, mkWorld (db w) (Some (pk, i)) (journal w)).

(** [db.session.commit()]: the pending instance becomes the stored row. *)
Definition db_session_commit : M unit :=
  λ w,
    match dirty w with
    | Some (pk, i) =>
        (Returned (),
         mkWorld (mkDb (<[pk := i]> (iocs (db w))) (tasks (db w)))
                 None (journal w ++ [SessionCommitted]))
    | None => (Returned (), record SessionCommitted w)
    end.

Definition int_field (d : Dict) (k : string) (dflt : Z) : Z :=
  match d !! k with Some (JInt n) => n | _ => dflt end.

Definition str_field (d : Dict) (k : string) (dflt : string) : string :=
  match d !! k with Some (JStr s) => s | _ => dflt end.

(** The attributes named in the payload are assigned, the others kept. *)
Definition merge_fields (d : Dict) (i : Ioc.t) : Ioc.t :=
  Ioc.mk (int_field d "ioc_id" (Ioc.ioc_id i))
         (str_field d "ioc_uuid" (Ioc.ioc_uuid i))
         (str_field d "ioc_value" (Ioc.ioc_value i))
         (int_field d "ioc_type_id" (Ioc.ioc_type_id i))
         (str_field d "ioc_description" (Ioc.ioc_description i))
         (int_field d "ioc_tlp_id" (Ioc.ioc_tlp_id i))
         (str_field d "ioc_tags" (Ioc.ioc_tags i))
         (str_field d "ioc_misp" (Ioc.ioc_misp i))
         (int_field d "user_id" (Ioc.user_id i))
         (int_field d "case_id" (Ioc.case_id i)).

(** [IocSchema().load(data, instance=..., partial=...)].
    Modelled from the spec: the schema is not part of the sources;
    "structural/schema validation (fails with ValidationError listing
    field errors)" and "merge partial fields onto existing entity,
    re-validate".  The validation rules are the environment's; a payload
    without errors is merged onto a blank instance, or onto the given
    instance, which is then pending in the session. *)
Definition IocSchema_load (data : Dict) (instance : option Ioc.t)
    (partial : bool) : M Ioc.t :=
  match schema_errors env data partial with
  | [] =>
      match instance with
      | None => mret (merge_fields data Ioc.blank)
      | Some i => set_pending (Ioc.ioc_id i) (merge_fields data i)
      end
  | messages => raise (ValidationError messages)
  end.

(** *** The module's functions *)

Definition _load (request_data : Dict) : M Ioc.t :=
  try_except
    (IocSchema_load request_data None false)
    (λ e, match e with
          | ValidationError messages =>
              Some (raise (BusinessProcessingError "Data error"
                             (Some (Messages messages))))
          | _ => None
          end).

Definition iocs_get_by_identifier (ioc_identifier : Z) : M (option Ioc.t) :=
  get_ioc ioc_identifier.

Definition iocs_create (request_json : Dict) (case_identifier : Z)
    : M (Ioc.t * string) :=
  request_data ← call_modules_hook "on_preload_ioc_create"
                   (PyDict request_json) (Some case_identifier);
  match request_data with
  | PyDict request_data =>
      ioc ← _load (<["case_id" := JInt case_identifier]> request_data);
      ok ← check_ioc_type_id (Ioc.ioc_type_id ioc);
      if negb ok then
        raise (BusinessProcessingError "Not a valid IOC type" None)
      else
        '(ioc, existed) ← add_ioc ioc (current_user_id env) case_identifier;
        '(ioc, _) ← call_modules_hook_on_instance "on_postload_ioc_create"
                      ioc (Some case_identifier);
        if truthy ioc then
          match ioc with
          | PyIoc ioc =>
              track_activity ("added ioc " +:+ quoted (Ioc.ioc_value ioc))
                             case_identifier;;
              mret (ioc, "IOC added")
          | _ => raise (RuntimeError "AttributeError")
          end
        else
          raise (BusinessProcessingError
                   "Unable to create IOC for internal reasons" None)
  | _ => raise (RuntimeError "TypeError")
  end.

(** The two [except] clauses of [iocs_update], tried in order. *)
Definition iocs_update_handlers (e : Exn) : option (M (Ioc.t * string)) :=
  match e with
  | ValidationError messages =>
      Some (raise (BusinessProcessingError "Data error"
                     (Some (Messages messages))))
  | e =>
      Some (raise (BusinessProcessingError "Unexpected error server-side"
                     (Some (Cause e))))
  end.

Definition iocs_update (identifier : Z) (request_json : Dict)
    : M (Ioc.t * string) :=
  try_except
    (ioc ← get_ioc identifier;
     match ioc with
     | None =>
         raise (BusinessProcessingError "Invalid IOC ID for this case" None)
     | Some ioc =>
         request_data ← call_modules_hook "on_preload_ioc_update"
                          (PyDict request_json) (Some (Ioc.case_id ioc));
         match request_data with
         | PyDict request_data =>
             let request_data := <["ioc_id" := JInt identifier]> request_data in
             let request_data :=
               <["case_id" := JInt (Ioc.case_id ioc)]> request_data in
             (* the instance is modified in place: from here on [ioc] and
                [ioc_sc] are one object *)
             ioc_sc ← IocSchema_load request_data (Some ioc) true;
             ioc_sc ← set_pending (Ioc.ioc_id ioc)
                        (Ioc.set_user_id (current_user_id env) ioc_sc);
             let ioc := ioc_sc in
             ok ← check_ioc_type_id (Ioc.ioc_type_id ioc_sc);
             if negb ok then
               raise (BusinessProcessingError "Not a valid IOC type" None)
             else
               update_ioc_state (Ioc.case_id ioc);;
               db_session_commit;;
               (* the hook is handed the instance: afterwards [ioc] is as
                  the hook left it, and [ioc_sc] is what the hook returned *)
               '(ioc_sc, ioc) ← call_modules_hook_on_instance
                                  "on_postload_ioc_update" ioc_sc
                                  (Some (Ioc.case_id ioc));
               if truthy ioc_sc then
                 match ioc_sc with
                 | PyIoc ioc_sc =>
                     track_activity
                       ("updated ioc " +:+ quoted (Ioc.ioc_value ioc_sc))
                       (Ioc.case_id ioc);;
                     mret (ioc,
                           "Updated ioc " +:+ quoted (Ioc.ioc_value ioc_sc))
                 | _ => raise (RuntimeError "AttributeError")
                 end
               else
                 raise (BusinessProcessingError
                          "Unable to update ioc for internal reasons" None)
         | _ => raise (RuntimeError "TypeError")
         end
     end)
    iocs_update_handlers.

Definition iocs_delete (identifier : Z) : M string :=
  call_modules_hook "on_preload_ioc_delete" (PyInt identifier) None;;
  ioc ← get_ioc identifier;
  match ioc with
  | None =>
      raise (BusinessProcessingError "Not a valid IOC for this case" None)
  | Some ioc =>
      delete_ioc ioc (Ioc.case_id ioc);;
      call_modules_hook "on_postload_ioc_delete" (PyInt identifier)
                        (Some (Ioc.case_id ioc));;
      track_activity ("deleted IOC " +:+ quoted (Ioc.ioc_value ioc))
                     (Ioc.case_id ioc);;
      mret ("IOC " +:+ pretty identifier +:+ " deleted")
  end.

End Business.

(** *** [iocs_build_filter_query] *)

(** Columns of [Ioc] the filter compares, and the values compared. *)
Inductive Column :=
| col_ioc_id | col_ioc_uuid | col_ioc_value | col_ioc_type_id
| col_ioc_description | col_ioc_tlp_id | col_ioc_tags | col_ioc_misp
| col_user_id.

Inductive SqlValue := SqlInt (n : Z) | SqlStr (s : string).

#[export] Instance SqlValue_eq_dec : EqDecision SqlValue.
Proof. solve_decision. Defined.

(** [Ioc.<column> == value]. *)
Inductive Condition := ColumnEq (c : Column) (v : SqlValue).

(** [Ioc.query.filter( *conditions )]: the rows of [Ioc] that satisfy every
    one of the conditions. *)
Inductive Query := Ioc_query_filter (conditions : list Condition).

Definition conditions_of (q : Query) : list Condition :=
  match q with Ioc_query_filter cs => cs end.

Definition column_value (c : Column) (r : Ioc.t) : SqlValue :=
  match c with
  | col_ioc_id => SqlInt (Ioc.ioc_id r)
  | col_ioc_uuid => SqlStr (Ioc.ioc_uuid r)
  | col_ioc_value => SqlStr (Ioc.ioc_value r)
  | col_ioc_type_id => SqlInt (Ioc.ioc_type_id r)
  | col_ioc_description => SqlStr (Ioc.ioc_description r)
  | col_ioc_tlp_id => SqlInt (Ioc.ioc_tlp_id r)
  | col_ioc_tags => SqlStr (Ioc.ioc_tags r)
  | col_ioc_misp => SqlStr (Ioc.ioc_misp r)
  | col_user_id => SqlInt (Ioc.user_id r)
  end.

Definition holds (r : Ioc.t) (c : Condition) : Prop :=
  match c with ColumnEq col v => column_value col r = v end.

#[export] Instance holds_dec r c : Decision (holds r c).
Proof. destruct c as [col v]; exact (decide (column_value col r = v)). Defined.

Definition run_query (q : Query) (rows : list Ioc.t) : list Ioc.t :=
  filter (λ r, Forall (holds r) (conditions_of q)) rows.

(** [if arg is not None: conditions.append(cond(arg))]. *)
Definition append_if_not_None {A} (arg : option A) (cond : A → Condition)
    (conditions : list Condition) : list Condition :=
  match arg with
  | Some v => conditions ++ [cond v]
  | None => conditions
  end.

Definition linked_cases_warning : string :=
  "Method 'iocs_build_filter_query' with providing 'linked_cases' is deprecated. It is no longer possible to query IOCs by linked cases.".

Definition iocs_build_filter_query
    (ioc_id : option Z) (ioc_uuid : option string) (ioc_value : option string)
    (ioc_type_id : option Z) (ioc_description : option string)
    (ioc_tlp_id : option Z) (ioc_tags : option string)
    (ioc_misp : option string) (user_id : option Z)
    (linked_cases : option Z) : M Query :=
  let conditions := [] in
  let conditions :=
    append_if_not_None ioc_id (λ v, ColumnEq col_ioc_id (SqlInt v)) conditions in
  let conditions :=
    append_if_not_None ioc_uuid (λ v, ColumnEq col_ioc_uuid (SqlStr v)) conditions in
  let conditions :=
    append_if_not_None ioc_value (λ v, ColumnEq col_ioc_value (SqlStr v)) conditions in
  let conditions :=
    append_if_not_None ioc_type_id (λ v, ColumnEq col_ioc_type_id (SqlInt v)) conditions in
  let conditions :=
    append_if_not_None ioc_description
      (λ v, ColumnEq col_ioc_description (SqlStr v)) conditions in
  let conditions :=
    append_if_not_None ioc_tlp_id (λ v, ColumnEq col_ioc_tlp_id (SqlInt v)) conditions in
  let conditions :=
    append_if_not_None ioc_tags (λ v, ColumnEq col_ioc_tags (SqlStr v)) conditions in
  let conditions :=
    append_if_not_None ioc_misp (λ v, ColumnEq col_ioc_misp (SqlStr v)) conditions in
  let conditions :=
    append_if_not_None user_id (λ v, ColumnEq col_user_id (SqlInt v)) conditions in
  let query := Ioc_query_filter conditions in
  match linked_cases with
  | Some _ => emit (Logged "warning" linked_cases_warning)
  | None => mret ()
  end;;
  mret query.

(** ** The REST layer *)

(** The responses built by [app.blueprints.rest.endpoints] and
    [app.blueprints.access_controls]. *)
Inductive Response :=
| response_api_success (data : Json)
| response_api_created (data : Json)
| response_api_deleted
| response_api_error (message : string) (data : option ErrData)
| response_api_not_found
| ac_api_return_access_denied (caseid : Z).

(** Does a response carry data of an entity? *)
Definition exposes_data (r : Response) : bool :=
  match r with
  | response_api_success _ | response_api_created _ => true
  | _ => false
  end.

Section Rest.
Context (env : Env).

(** [ac_fast_check_current_user_has_case_access(case_id, levels)]. *)
Definition ac_fast_check_current_user_has_case_access (cid : Z)
    (levels : list CaseAccessLevel) : M bool :=
  λ w, let granted := case_access env cid levels in
       (Returned granted, record (AccessChecked cid levels granted) w).

(** Entering an operation of the business layer. *)
Definition business {A} (operation : string) (m : M A) : M A :=
  emit (BusinessCalled operation);; m.

(** An operation of the business layer that is given by the environment. *)
Definition on_db {A} (f : Db → Outcome A * Db) : M A :=
  λ w, let '(r, d) := f (db w) in (r, mkWorld d (dirty w) (journal w)).

(** [iocs_get(identifier)], imported by the REST module from
    [app.business.iocs].
    Modelled from the spec: the business module at hand does not define
    it; "get(entityId): fetch; ObjectNotFoundError if absent; no hooks,
    no audit (read path)". *)
Definition iocs_get (ioc_identifier : Z) : M Ioc.t :=
  ioc ← get_ioc ioc_identifier;
  match ioc with
  | None => raise ObjectNotFoundError
  | Some ioc => mret ioc
  end.

(** [tasks_get(identifier)] of [app.business.tasks].
    Modelled from the spec: the task module is not part of the sources;
    "get(entityId): fetch; ObjectNotFoundError if absent". *)
Definition tasks_get (identifier : Z) : M Task.t :=
  λ w, match tasks (db w) !! identifier with
       | None => (Raised ObjectNotFoundError, w)
       | Some task => (Returned task, w)
       end.

(** *** [app/blueprints/rest/v2/cases/iocs.py] *)

Definition get_case_iocs (case_id : Z) : M Response :=
  ok ← ac_fast_check_current_user_has_case_access case_id
         [read_only; full_access];
  if negb ok then mret (ac_api_return_access_denied case_id)
  else
    let page := default 1 (args_int env "page") in
    let per_page := default 10 (args_int env "per_page") in
    let order_by := args_str env "order_by" in
    let sort_dir := default "asc" (args_str env "sort_dir") in
    let ioc_type_id := args_int env "ioc_type_id" in
    let ioc_type := args_str env "ioc_type" in
    let ioc_tlp_id := args_int env "ioc_tlp_id" in
    let ioc_value := args_str env "ioc_value" in
    let ioc_description := args_str env "ioc_description" in
    let ioc_tags := args_str env "ioc_tags" in
    let filtered_iocs :=
      get_filtered_iocs env
        (mkIocsFilter case_id ioc_type_id ioc_type ioc_tlp_id ioc_value
                      ioc_description ioc_tags page per_page order_by sort_dir) in
    match filtered_iocs with
    | None => mret (response_api_error "Filtering error" None)
    | Some filtered_iocs =>
        let iocs := JList (dump_ioc env <$> Pagination.items filtered_iocs) in
        let iocs :=
          JDict [("total", JInt (Pagination.total filtered_iocs));
                 ("data", iocs);
                 ("last_page", JInt (Pagination.pages filtered_iocs));
                 ("current_page", JInt (Pagination.page filtered_iocs));
                 ("next_page",
                  if Pagination.has_next filtered_iocs
                  then JInt (Pagination.next_num filtered_iocs) else JNull)] in
        mret (response_api_success iocs)
    end.

Definition add_ioc_to_case (case_id : Z) : M Response :=
  ok ← ac_fast_check_current_user_has_case_access case_id [full_access];
  if negb ok then mret (ac_api_return_access_denied case_id)
  else
    try_except
      ('(ioc, _) ← business "iocs_create"
                     (iocs_create env (request_get_json env) case_id);
       mret (response_api_created (dump_ioc env ioc)))
      (λ e, match e with
            | BusinessProcessingError message _ =>
                Some (emit (LoggedException "error" e);;
                      mret (response_api_error message None))
            | _ => None
            end).

Definition delete_case_ioc (case_id identifier : Z) : M Response :=
  try_except
    (ioc ← business "iocs_get" (iocs_get identifier);
     ok ← ac_fast_check_current_user_has_case_access (Ioc.case_id ioc)
            [full_access];
     if negb ok then mret (ac_api_return_access_denied (Ioc.case_id ioc))
     else if decide (Ioc.case_id ioc ≠ case_id) then raise ObjectNotFoundError
     else
       business "iocs_delete" (on_db (business_iocs_delete env ioc));;
       mret response_api_deleted)
    (λ e, match e with
          | ObjectNotFoundError => Some (mret response_api_not_found)
          | BusinessProcessingError message _ =>
              Some (mret (response_api_error message None))
          | _ => None
          end).

Definition get_case_ioc (case_id identifier : Z) : M Response :=
  try_except
    (ioc ← business "iocs_get" (iocs_get identifier);
     ok ← ac_fast_check_current_user_has_case_access (Ioc.case_id ioc)
            [read_only; full_access];
     if negb ok then mret (ac_api_return_access_denied (Ioc.case_id ioc))
     else if decide (Ioc.case_id ioc ≠ case_id) then raise ObjectNotFoundError
     else mret (response_api_success (dump_ioc env ioc)))
    (λ e, match e with
          | ObjectNotFoundError => Some (mret response_api_not_found)
          | _ => None
          end).

Definition update_ioc (case_id identifier : Z) : M Response :=
  try_except
    (ioc ← business "iocs_get" (iocs_get identifier);
     ok ← ac_fast_check_current_user_has_case_access (Ioc.case_id ioc)
            [full_access];
     if negb ok then mret (ac_api_return_access_denied (Ioc.case_id ioc))
     else
       '(ioc, _) ← business "iocs_update"
                     (on_db (business_iocs_update env ioc (request_get_json env)));
       mret (response_api_success (dump_ioc env ioc)))
    (λ e, match e with
          | ObjectNotFoundError => Some (mret response_api_not_found)
          | BusinessProcessingError message data =>
              Some (mret (response_api_error message data))
          | _ => None
          end).

(** *** [app/blueprints/rest/v2/case/api_v2_case_tasks_routes.py] *)

Definition case_add_task (identifier : Z) : M Response :=
  ok ← ac_fast_check_current_user_has_case_access identifier [full_access];
  if negb ok then mret (ac_api_return_access_denied identifier)
  else
    try_except
      ('(_, case) ← business "tasks_create"
                      (on_db (business_tasks_create env identifier
                                (request_get_json env)));
       mret (response_api_created (dump_task env case)))
      (λ e, match e with
            | BusinessProcessingError message _ =>
                Some (mret (response_api_error message None))
            | _ => None
            end).

Definition case_task_view (identifier : Z) : M Response :=
  try_except
    (task ← business "tasks_get" (tasks_get identifier);
     ok ← ac_fast_check_current_user_has_case_access (Task.task_case_id task)
            [read_only; full_access];
     if negb ok then
       mret (ac_api_return_access_denied (Task.task_case_id task))
     else mret (response_api_created (dump_task env task)))
    (λ e, match e with
          | ObjectNotFoundError => Some (mret response_api_not_found)
          | _ => None
          end).

Definition case_delete_task (identifier : Z) : M Response :=
  try_except
    (task ← business "tasks_get" (tasks_get identifier);
     ok ← ac_fast_check_current_user_has_case_access (Task.task_case_id task)
            [full_access];
     if negb ok then mret (ac_api_return_access_denied identifier)
     else
       business "tasks_delete" (on_db (business_tasks_delete env task));;
       mret response_api_deleted)
    (λ e, match e with
          | ObjectNotFoundError => Some (mret response_api_not_found)
          | BusinessProcessingError message _ =>
              Some (mret (response_api_error message None))
          | _ => None
          end).

(** *** [app/blueprints/rest/v2/cases/__init__.py] *)

Definition get_cases : M Response :=
  let page := default 1 (args_int env "page") in
  let per_page := default 10 (args_int env "per_page") in
  let case_ids_str := args_ids env "case_ids" in
  let order_by := args_str env "order_by" in
  let sort_dir := default "asc" (args_str env "sort_dir") in
  let case_customer_id := args_str env "case_customer_id" in
  let case_name := args_str env "case_name" in
  let case_description := args_str env "case_description" in
  let case_classification_id := args_int env "case_classification_id" in
  let case_owner_id := args_int env "case_owner_id" in
  let case_opening_user_id := args_int env "case_opening_user_id" in
  let case_severity_id := args_int env "case_severity_id" in
  let case_state_id := args_int env "case_state_id" in
  let case_soc_id := args_str env "case_soc_id" in
  let start_open_date := args_str env "start_open_date" in
  let end_open_date := args_str env "end_open_date" in
  let is_open := args_bool env "is_open" in
  let filtered_cases :=
    get_filtered_cases env
      (mkCasesFilter case_ids_str case_customer_id case_name case_description
         case_classification_id case_owner_id case_opening_user_id
         case_severity_id case_state_id case_soc_id start_open_date
         end_open_date "" page per_page (current_user_id env) order_by
         sort_dir is_open) in
  match filtered_cases with
  | None => mret (response_api_error "Filtering error" None)
  | Some filtered_cases =>
      let cases :=
        JDict [("total", JInt (Pagination.total filtered_cases));
               ("data", JList (dump_case env <$> Pagination.items filtered_cases));
               ("last_page", JInt (Pagination.pages filtered_cases));
               ("current_page", JInt (Pagination.page filtered_cases));
               ("next_page",
                if Pagination.has_next filtered_cases
                then JInt (Pagination.next_num filtered_cases) else JNull)] in
      mret (response_api_success cases)
  end.

End Rest.

(** ** A concrete environment *)

(** A request of user 7, who holds full access on case 5 only; the schema
    requires a string [ioc_value]; IOC type 1 is the only known type; the
    hooks hand their data back unchanged. *)
Module Demo.

Definition schema_errors (d : Dict) (partial : bool) : FieldErrors :=
  match d !! "ioc_value" with
  | Some (JStr _) => []
  | Some _ => [("ioc_value", ["Not a valid string."])]
  | None =>
      if partial then []
      else [("ioc_value", ["Missing data for required field."])]
  end.

Definition dump_ioc (i : Ioc.t) : Json :=
  JDict [("ioc_id", JInt (Ioc.ioc_id i));
         ("ioc_value", JStr (Ioc.ioc_value i));
         ("case_id", JInt (Ioc.case_id i))].

Definition dump_task (t : Task.t) : Json :=
  JDict [("id", JInt (Task.id t)); ("task_title", JStr (Task.task_title t))].

Definition dump_case (c : Case.t) : Json :=
  JDict [("case_id", JInt (Case.case_id c));
         ("case_name", JStr (Case.case_name c))].

Definition ioc_a : Ioc.t := Ioc.mk 1 "u-1" "1.2.3.4" 1 "" 2 "" "" 7 5.
Definition ioc_b : Ioc.t := Ioc.mk 2 "u-2" "evil.example" 1 "" 2 "" "" 7 6.
Definition task_a : Task.t := Task.mk 1 5 "triage".
Definition task_b : Task.t := Task.mk 2 6 "contain".

Definition iocs_page (f : IocsFilter) : option (Pagination.t Ioc.t) :=
  Some (Pagination.mk [ioc_a] 11 2 (f_page f) true (f_page f + 1)).

Definition cases_page (f : CasesFilter) : option (Pagination.t Case.t) :=
  Some (Pagination.mk [Case.mk 5 "alpha"] 1 1 (c_page f) false (c_page f + 1)).

Definition iocs_update_rows (i : Ioc.t) (d : Dict) (rows : Db)
    : Outcome (Ioc.t * string) * Db :=
  (Returned (i, "updated"), rows).

Definition iocs_delete_row (i : Ioc.t) (rows : Db) : Outcome string * Db :=
  (Returned "deleted", mkDb (delete (Ioc.ioc_id i) (iocs rows)) (tasks rows)).

Definition tasks_create_row (c : Z) (d : Dict) (rows : Db)
    : Outcome (string * Task.t) * Db :=
  let t := Task.mk 3 c "new" in
  (Returned ("created", t), mkDb (iocs rows) (<[3 := t]> (tasks rows))).

Definition tasks_delete_row (t : Task.t) (rows : Db) : Outcome string * Db :=
  (Returned "deleted", mkDb (iocs rows) (delete (Task.id t) (tasks rows))).

(** The environment, for a given request body and hook dispatcher. *)
Definition env_with (body : Dict)
    (hook : string → PyVal → option Z → Outcome PyVal) : Env :=
  mkEnv 7 body (λ _, None) (λ _, None) (λ _, None) (λ _, None)
        (λ c _, bool_decide (c = 5))
        hook schema_errors (λ t, bool_decide (t = 1))
        iocs_page cases_page dump_ioc dump_task dump_case
        iocs_update_rows iocs_delete_row tasks_create_row tasks_delete_row
        (λ _ instance _, instance).

Definition identity_hook (name : string) (data : PyVal) (caseid : option Z)
    : Outcome PyVal := Returned data.


Definition good_body : Dict :=
  {[ "ioc_value" := JStr "1.2.3.4"; "ioc_type_id" := JInt 1 ]}.

(** A body whose [ioc_value] is not a string. *)
Definition bad_body : Dict :=
  {[ "ioc_value" := JInt 42; "ioc_type_id" := JInt 1 ]}.

Definition env : Env := env_with good_body identity_hook.

(** Two IOCs, one in case 5 and one in case 6, and likewise two tasks. *)
Definition world : World :=
  mkWorld (mkDb {[ 1 := ioc_a; 2 := ioc_b ]} {[ 1 := task_a; 2 := task_b ]})
          None [].

Definition empty_world : World := mkWorld (mkDb ∅ ∅) None [].

End Demo.

(** ** Properties of journals and responses *)

(** The fields of the payload of a success response. *)
Definition payload_fields (r : Response) : list (string * Json) :=
  match r with
  | response_api_success (JDict fields) => fields
  | _ => []
  end.

(** The operations of the business layer that change an entity. *)
Definition mutating (operation : string) : bool :=
  bool_decide (operation ∈ ["iocs_create"; "iocs_update"; "iocs_delete";
                            "tasks_create"; "tasks_delete";
                            "cases_create"; "cases_delete"]).

(** Does an event change an entity or the activity log? *)
Definition is_mutation (e : Event) : bool :=
  match e with
  | BusinessCalled operation => mutating operation
  | IocInserted _ | IocDeleted _ | SessionCommitted => true
  | ActivityTracked _ _ => true
  | _ => false
  end.

Definition is_access_check (e : Event) : bool :=
  match e with AccessChecked _ _ _ => true | _ => false end.

(** In a stretch of journal, every operation of the business layer, reads
    included, is entered after an access check ([checked]: one has been
    seen already). *)
Fixpoint checked_first (checked : bool) (j : list Event) : bool :=
  match j with
  | [] => true
  | AccessChecked _ _ _ :: j => checked_first true j
  | BusinessCalled _ :: j => checked && checked_first checked j
  | _ :: j => checked_first checked j
  end.


(** A handler authorizes first, on the case [owner] and for [levels].
    In every world, when there is no owner (the fetch found nothing) the
    handler answers not-found and adds [fetch] to the journal, nothing
    else.  When there is one, the journal gets [fetch], then the access
    check on the owner for exactly these levels with the decision of the
    access controller, then the rest, which holds no further access check:
    whatever is called, persisted, tracked or answered comes after that
    check.  A response with entity data needs the check to be granted, and
    after a refusal nothing follows the check, the response is the
    access-denied one and the rows and the session are as before. *)
Definition authorized_by (env : Env) (fetch : list Event)
    (owner : World → option Z) (levels : list CaseAccessLevel)
    (h : M Response) : Prop :=
  ∀ w,
    match owner w with
    | None =>
        h w = (Returned response_api_not_found,
               mkWorld (db w) (dirty w) (journal w ++ fetch))
    | Some c =>
        let granted := case_access env c levels in
        ∃ rest,
          journal (h w).2
          = journal w ++ fetch ++ AccessChecked c levels granted :: rest
          ∧ Forall (λ e, is_access_check e = false) rest
          ∧ (∀ response,
               (h w).1 = Returned response → exposes_data response = true →
               granted = true)
          ∧ (granted = false →
             rest = []
             ∧ (∃ c', (h w).1 = Returned (ac_api_return_access_denied c'))
             ∧ db (h w).2 = db w ∧ dirty (h w).2 = dirty w)
    end.

(** A stretch of journal holds exactly one activity entry, for case [c],
    written last and after a persistence event. *)
Definition audited_once (c : Z) (delta : list Event) : Prop :=
  ∃ before message,
    delta = before ++ [ActivityTracked message c]
    ∧ activity_of before = []
    ∧ Exists (λ e, is_persistence e = true) before.

(** What the activity tracker must have seen of an attempt with the given
    outcome. *)
Definition audit_of {A} (c : Z) (r : Outcome A) (delta : list Event) : Prop :=
  match r with
  | Returned _ => audited_once c delta
  | Raised _ => activity_of delta = []
  end.

(** The conditions expected of the filter: one equality per argument that
    is not [None], in the order of the parameters. *)
Definition equality_per_argument
    (ioc_id : option Z) (ioc_uuid ioc_value : option string)
    (ioc_type_id : option Z) (ioc_description : option string)
    (ioc_tlp_id : option Z) (ioc_tags ioc_misp : option string)
    (user_id : option Z) : list Condition :=
  omap id
    [ (λ v, ColumnEq col_ioc_id (SqlInt v)) <$> ioc_id;
      (λ v, ColumnEq col_ioc_uuid (SqlStr v)) <$> ioc_uuid;
      (λ v, ColumnEq col_ioc_value (SqlStr v)) <$> ioc_value;
      (λ v, ColumnEq col_ioc_type_id (SqlInt v)) <$> ioc_type_id;
      (λ v, ColumnEq col_ioc_description (SqlStr v)) <$> ioc_description;
      (λ v, ColumnEq col_ioc_tlp_id (SqlInt v)) <$> ioc_tlp_id;
      (λ v, ColumnEq col_ioc_tags (SqlStr v)) <$> ioc_tags;
      (λ v, ColumnEq col_ioc_misp (SqlStr v)) <$> ioc_misp;
      (λ v, ColumnEq col_user_id (SqlInt v)) <$> user_id ].

(** How many of the arguments are supplied. *)
Definition supplied {A} (arg : option A) : nat :=
  match arg with Some _ => 1%nat | None => 0%nat end.

(** An argument constrains a row only when it is supplied. *)
Definition agrees {A} (arg : option A) (column : A) : Prop :=
  match arg with Some v => column = v | None => True end.

(** ** More handlers: cases by identifier, dashboard, overview *)

(** What these handlers import from code that is not part of the sources:
    [get_case], [cases_create] and [cases_delete], the dashboard queries,
    the overview query, and the schemas of the dashboard. *)
Record CasesEnv := mkCasesEnv {
  get_case : Z → option Case.t;
  business_cases_create : Dict → Db → Outcome (Case.t * string) * Db;
  business_cases_delete : Z → Db → Outcome string * Db;
  list_user_cases : bool → list Case.t;
  list_user_tasks : list Task.t;
  list_user_reviews : list Case.t;
  get_overview_db : Z → bool → Json;
  dump_case_details : Case.t → Json;
  dump_case_review : Case.t → Json
}.

(** [str.lower()] on the letters [A] to [Z]; the other bytes are kept. *)
Definition ascii_lower (a : Ascii.ascii) : Ascii.ascii :=
  let n := Ascii.nat_of_ascii a in
  if (65 <=? n)%nat && (n <=? 90)%nat then Ascii.ascii_of_nat (n + 32) else a.

Fixpoint lower (s : string) : string :=
  match s with
  | EmptyString => EmptyString
  | String a s => String (ascii_lower a) (lower s)
  end.

(** [response_success(msg, data)] of [app.blueprints.responses]. *)
Inductive LegacyResponse := response_success (msg : string) (data : Json).

Section MoreRest.
Context (env : Env) (cenv : CasesEnv).

(** *** [app/blueprints/rest/v2/cases/__init__.py] *)

Definition create_case : M Response :=
  try_except
    ('(case, _) ← business "cases_create"
                    (on_db (business_cases_create cenv (request_get_json env)));
     mret (response_api_created (dump_case env case)))
    (λ e, match e with
          | BusinessProcessingError message data =>
              Some (mret (response_api_error message data))
          | _ => None
          end).

Definition case_routes_get (identifier : Z) : M Response :=
  let case := get_case cenv identifier in
  match case with
  | None => mret response_api_not_found
  | Some case =>
      ok ← ac_fast_check_current_user_has_case_access env identifier
             [read_only; full_access];
      if negb ok then mret (ac_api_return_access_denied identifier)
      else mret (response_api_success (dump_case env case))
  end.

Definition case_routes_delete (identifier : Z) : M Response :=
  ok ← ac_fast_check_current_user_has_case_access env identifier [full_access];
  if negb ok then mret (ac_api_return_access_denied identifier)
  else
    try_except
      (business "cases_delete"
         (on_db (business_cases_delete cenv identifier));;
       mret response_api_deleted)
      (λ e, match e with
            | BusinessProcessingError message _ =>
                Some (mret (response_api_error message None))
            | _ => None
            end).

(** *** [app/blueprints/rest/v2/dashboard/__init__.py] *)

Definition list_own_cases : M Response :=
  let cases :=
    list_user_cases cenv
      (bool_decide (lower (default "false" (args_str env "show_closed")) = "true")) in
  mret (response_api_success (JList (dump_case_details cenv <$> cases))).

Definition list_own_tasks : M Response :=
  let ct := list_user_tasks cenv in
  mret (response_api_success (JList (dump_task env <$> ct))).

Definition list_own_reviews : M Response :=
  let reviews := list_user_reviews cenv in
  mret (response_api_success (JList (dump_case_review cenv <$> reviews))).

(** *** [app/blueprints/rest/overview_routes.py] *)

Definition get_overview_filter : M LegacyResponse :=
  let show_full :=
    bool_decide (default "false" (args_str env "show_closed") = "true") in
  let overview := get_overview_db cenv (current_user_id env) show_full in
  mret (response_success "" overview).

End MoreRest.

(** The sixteen ways of capitalising [true]. *)
Definition capitalisations_of_true : list string :=
  t ← ["t"; "T"]; r ← ["r"; "R"]; u ← ["u"; "U"]; e ← ["e"; "E"];
  [t +:+ r +:+ u +:+ e].

(** An environment for the additional handlers: case 5 exists, no other. *)
Module DemoCases.

Definition case_alpha : Case.t := Case.mk 5 "alpha".

Definition get_case (identifier : Z) : option Case.t :=
  if bool_decide (identifier = 5) then Some case_alpha else None.

Definition cases_create_row (d : Dict) (rows : Db)
    : Outcome (Case.t * string) * Db :=
  (Returned (Case.mk 6 "beta", "created"), rows).

Definition cases_delete_rows (identifier : Z) (rows : Db) : Outcome string * Db :=
  (Returned "deleted",
   mkDb (filter (λ kv, Ioc.case_id kv.2 ≠ identifier) (iocs rows))
        (filter (λ kv, Task.task_case_id kv.2 ≠ identifier) (tasks rows))).

Definition cenv : CasesEnv :=
  mkCasesEnv get_case cases_create_row cases_delete_rows
             (λ show_closed, if show_closed then [case_alpha; Case.mk 4 "old"]
                             else [case_alpha])
             [Demo.task_a] [case_alpha]
             (λ user show_full, JBool show_full)
             Demo.dump_case Demo.dump_case.

(** The request of [Demo.env] with a query string [show_closed=<value>]. *)
Definition env_show_closed (value : string) : Env :=
  mkEnv 7 Demo.good_body (λ _, None)
        (λ name, if bool_decide (name = "show_closed") then Some value else None)
        (λ _, None) (λ _, None)
        (λ c _, bool_decide (c = 5))
        Demo.identity_hook Demo.schema_errors (λ t, bool_decide (t = 1))
        Demo.iocs_page Demo.cases_page Demo.dump_ioc Demo.dump_task
        Demo.dump_case Demo.iocs_update_rows Demo.iocs_delete_row
        Demo.tasks_create_row Demo.tasks_delete_row
        (λ _ instance _, instance).

(** A user without access to any case. *)
Definition env_no_access : Env :=
  mkEnv 8 Demo.good_body (λ _, None) (λ _, None) (λ _, None) (λ _, None)
        (λ _ _, false)
        Demo.identity_hook Demo.schema_errors (λ t, bool_decide (t = 1))
        Demo.iocs_page Demo.cases_page Demo.dump_ioc Demo.dump_task
        Demo.dump_case Demo.iocs_update_rows Demo.iocs_delete_row
        Demo.tasks_create_row Demo.tasks_delete_row
        (λ _ instance _, instance).

(** A dispatcher whose pre-load handlers abort. *)
Definition aborting_pre_hook (name : string) (data : PyVal)
    (caseid : option Z) : Outcome PyVal :=
  if bool_decide (name ∈ ["on_preload_ioc_create"; "on_preload_ioc_update";
                          "on_preload_ioc_delete"])
  then Raised (RuntimeError "aborted") else Returned data.

(** A body naming an IOC type that does not exist. *)
Definition unknown_type_body : Dict :=
  {[ "ioc_value" := JStr "1.2.3.4"; "ioc_type_id" := JInt 99 ]}.

(** A body that tries to move the IOC to case 6 and to renumber it. *)
Definition moving_body : Dict :=
  {[ "ioc_value" := JStr "4.3.2.1"; "case_id" := JInt 6; "ioc_id" := JInt 2;
     "user_id" := JInt 1 ]}.

End DemoCases.

(** An environment whose post-load update handlers move the instance they
    are given to case 6, in place, and hand it back. *)
Module DemoEdit.

Definition moved (i : Ioc.t) : Ioc.t := Ioc.set_case_id 6 i.

Definition hook (name : string) (data : PyVal) (caseid : option Z)
    : Outcome PyVal :=
  match data with
  | PyIoc i =>
      if bool_decide (name = "on_postload_ioc_update")
      then Returned (PyIoc (moved i)) else Returned data
  | _ => Returned data
  end.

Definition env : Env :=
  mkEnv 7 Demo.good_body (λ _, None) (λ _, None) (λ _, None) (λ _, None)
        (λ c _, bool_decide (c = 5))
        hook Demo.schema_errors (λ t, bool_decide (t = 1))
        Demo.iocs_page Demo.cases_page Demo.dump_ioc Demo.dump_task
        Demo.dump_case Demo.iocs_update_rows Demo.iocs_delete_row
        Demo.tasks_create_row Demo.tasks_delete_row
        (λ name instance _,
           if bool_decide (name = "on_postload_ioc_update")
           then moved instance else instance).

End DemoEdit.

(** A dispatcher whose pre-load delete handlers raise a validation error. *)
Module DemoInvalid.

Definition hook (name : string) (data : PyVal) (caseid : option Z)
    : Outcome PyVal :=
  if bool_decide (name = "on_preload_ioc_delete")
  then Raised (ValidationError [("ioc_id", ["Refused by a module."])])
  else Returned data.

Definition env : Env := Demo.env_with Demo.good_body hook.

End DemoInvalid.

(** An environment whose business operations refuse with details. *)
Module DemoFailing.

Definition refusal : Exn :=
  BusinessProcessingError "Rejected" (Some (Messages [("name", ["taken"])])).

Definition env : Env :=
  mkEnv 7 Demo.good_body (λ _, None) (λ _, None) (λ _, None) (λ _, None)
        (λ c _, bool_decide (c = 5))
        Demo.identity_hook Demo.schema_errors (λ t, bool_decide (t = 1))
        Demo.iocs_page Demo.cases_page Demo.dump_ioc Demo.dump_task
        Demo.dump_case
        (λ _ _ rows, (Raised refusal, rows)) (λ _ rows, (Raised refusal, rows))
        (λ _ _ rows, (Raised refusal, rows)) (λ _ rows, (Raised refusal, rows))
        (λ _ instance _, instance).

Definition cenv : CasesEnv :=
  mkCasesEnv DemoCases.get_case
             (λ _ rows, (Raised refusal, rows)) (λ _ rows, (Raised refusal, rows))
             (λ _, []) [] [] (λ _ _, JNull) Demo.dump_case Demo.dump_case.

End DemoFailing.

(** * Proofs *)

(** ** Tactics: running a computation along all of its paths *)

Ltac unfold_monad :=
  unfold mbind, M_bind, mret, M_ret, raise, try_except, emit, answer, record in *.

Ltac unfold_business :=
  unfold iocs_create, iocs_update, iocs_update_handlers, iocs_delete, _load,
    IocSchema_load, call_modules_hook, call_modules_hook_on_instance,
    track_activity, check_ioc_type_id,
    get_ioc, add_ioc, delete_ioc, update_ioc_state, set_pending,
    db_session_commit in *.

Ltac unfold_rest :=
  unfold get_case_iocs, add_ioc_to_case, delete_case_ioc, get_case_ioc,
    update_ioc, case_add_task, case_task_view, case_delete_task, get_cases,
    business, on_db, iocs_get, tasks_get, get_ioc,
    ac_fast_check_current_user_has_case_access in *.

Ltac split_paths :=
  repeat (progress cbn [fst snd db dirty journal iocs tasks] in * || case_match);
  simplify_eq.

(** Replace a tested [negb b] by the value of [b]. *)
Ltac decide_access :=
  repeat match goal with
         | H : negb ?b = _ |- _ =>
             destruct b eqn:?; cbn [negb] in H; try discriminate H; clear H
         end.

(** Name the outcome and final world of a run, then follow every path. *)
Ltac run_business m :=
  let r := fresh "r" in let w' := fresh "w'" in let Hrun := fresh "Hrun" in
  destruct m as [r w'] eqn:Hrun;
  unfold_business; unfold_monad; split_paths.

Ltac run_rest m :=
  let r := fresh "r" in let w' := fresh "w'" in let Hrun := fresh "Hrun" in
  destruct m as [r w'] eqn:Hrun;
  unfold_rest; unfold_monad; split_paths; decide_access.

Lemma delta_nil {A} (l : list A) : l = l ++ [].
Proof. by rewrite app_nil_r. Qed.

Ltac step :=
  cbn [fst snd db dirty journal iocs tasks negb fmap option_fmap option_map].

(** Exhibit what a path added to the journal. *)
Ltac journal_delta :=
  cbn [fst snd journal db dirty iocs tasks];
  first
    [ exists []; split; [apply delta_nil |]
    | eexists; split; [rewrite <- ?app_assoc; reflexivity |] ];
  cbn [app].

(** The entry is the last event and a persistence event comes before. *)
Ltac audited :=
  first
    [ eexists [_; _; _; _; _], _; split; [reflexivity |]
    | eexists [_; _; _; _], _; split; [reflexivity |]
    | eexists [_; _; _], _; split; [reflexivity |]
    | eexists [_; _], _; split; [reflexivity |]
    | eexists [_], _; split; [reflexivity |] ];
  split; [reflexivity |];
  repeat first [ apply Exists_cons_hd; reflexivity | apply Exists_cons_tl ].

(** ** Helper lemmas *)


Lemma int_field_insert (d : Dict) (k : string) (n dflt : Z) :
  int_field (<[k := JInt n]> d) k dflt = n.
Proof. unfold int_field. by rewrite lookup_insert_eq. Qed.

Lemma fresh_ioc_id_above (rows : gmap Z Ioc.t) (k : Z) :
  is_Some (rows !! k) → k < fresh_ioc_id rows.
Proof.
  unfold fresh_ioc_id. revert k.
  apply (map_fold_weak_ind
           (λ acc (m : gmap Z Ioc.t), ∀ k, is_Some (m !! k) → k < 1 + acc)).
  - intros k [x Hx]. by rewrite lookup_empty in Hx.
  - intros i x m r Hi IH k Hk.
    destruct (decide (i = k)) as [->|Hne]; [lia|].
    rewrite lookup_insert_ne in Hk by done. specialize (IH k Hk). lia.
Qed.

Lemma fresh_ioc_id_free (rows : gmap Z Ioc.t) :
  rows !! fresh_ioc_id rows = None.
Proof.
  destruct (rows !! fresh_ioc_id rows) eqn:E; [|done].
  assert (fresh_ioc_id rows < fresh_ioc_id rows); [|lia].
  apply fresh_ioc_id_above. by rewrite E.
Qed.

(** *** The three mutations, along every path *)

Lemma iocs_create_run env json c w :
  ∃ delta,
    journal (iocs_create env json c w).2 = journal w ++ delta
    ∧ Forall (λ e, is_access_check e = false) delta
    ∧ audit_of c (iocs_create env json c w).1 delta
    ∧ match (iocs_create env json c w).1 with
      | Returned _ =>
          ∃ n row, iocs (db w) !! n = None
                   ∧ iocs (db (iocs_create env json c w).2) !! n = Some row
                   ∧ Ioc.case_id row = c
      | Raised _ => True
      end.
Proof.
  run_business (iocs_create env json c w); journal_delta;
    (split; [repeat constructor |]); simpl; try done.
  split; [audited|].
  eexists _, _. split; [apply fresh_ioc_id_free|].
  split; [apply lookup_insert_eq|].
  simpl. apply int_field_insert.
Qed.



(** *** The handlers authorize first *)

(** One path of a handler, after the outcome of the access check is known:
    the journal is the fetch, the check and a rest without checks. *)
Ltac authorized_leaf :=
  cbn [fst snd journal db dirty iocs tasks];
  eexists; split; [rewrite <- ?app_assoc; cbn [app]; reflexivity |];
  split; [repeat constructor |];
  split; [intros ? ? ?; simplify_eq/=; done |];
  intros ?; first [discriminate | split; [reflexivity |]; split; [by eexists | done]].

Lemma add_ioc_to_case_authorized env c :
  authorized_by env [] (λ _, Some c) [full_access] (add_ioc_to_case env c).
Proof.
  intros w. cbn beta iota zeta.
  unfold add_ioc_to_case, ac_fast_check_current_user_has_case_access, business.
  unfold_monad.
  destruct (case_access env c [full_access]) eqn:Hacc; cbn [negb].
  - match goal with
    | |- context [iocs_create env ?j c ?w1] =>
        destruct (iocs_create_run env j c w1) as (d & Hd & Hquiet & _);
        destruct (iocs_create env j c w1) as [[[ioc msg]|e] w2]
    end; cbn [fst snd journal app] in *.
    + exists (BusinessCalled "iocs_create" :: d).
      rewrite Hd, <- !app_assoc. split; [done|].
      split; [by constructor|]. split; done.
    + destruct e; cbn [fst snd journal] in *.
      all: first
        [ exists (BusinessCalled "iocs_create" :: d);
          rewrite Hd, <- ?app_assoc; split; [done|]
        | eexists (BusinessCalled "iocs_create"
                   :: d ++ [LoggedException "error" _]);
          rewrite Hd, <- ?app_assoc; split; [done|] ].
      all: split; [constructor; [done|]; rewrite ?Forall_app;
                   repeat constructor; done|].
      all: split; done.
  - authorized_leaf.
Qed.

Ltac fetched_then_authorized Hrow :=
  unfold_rest; unfold_monad; cbn [fst snd db dirty journal iocs tasks];
  rewrite Hrow; cbn [fmap option_fmap option_map fst snd db dirty journal];
  try reflexivity;
  cbn [Ioc.case_id Ioc.set_ioc_id];
  match goal with
  | |- context [case_access ?env ?c ?lv] =>
      destruct (case_access env c lv) eqn:?
  end; cbn [negb]; split_paths; authorized_leaf.

Lemma update_ioc_authorized env c id :
  authorized_by env [BusinessCalled "iocs_get"]
    (λ w, Ioc.case_id <$> iocs (db w) !! id) [full_access]
    (update_ioc env c id).
Proof.
  intros w. destruct (iocs (db w) !! id) as [row|] eqn:Hrow;
    cbn [fmap option_fmap option_map]; fetched_then_authorized Hrow.
Qed.

Lemma delete_case_ioc_authorized env c id :
  authorized_by env [BusinessCalled "iocs_get"]
    (λ w, Ioc.case_id <$> iocs (db w) !! id) [full_access]
    (delete_case_ioc env c id).
Proof.
  intros w. destruct (iocs (db w) !! id) as [row|] eqn:Hrow;
    cbn [fmap option_fmap option_map]; fetched_then_authorized Hrow.
Qed.

Lemma get_case_ioc_authorized env c id :
  authorized_by env [BusinessCalled "iocs_get"]
    (λ w, Ioc.case_id <$> iocs (db w) !! id) [read_only; full_access]
    (get_case_ioc env c id).
Proof.
  intros w. destruct (iocs (db w) !! id) as [row|] eqn:Hrow;
    cbn [fmap option_fmap option_map]; fetched_then_authorized Hrow.
Qed.

Lemma case_add_task_authorized env id :
  authorized_by env [] (λ _, Some id) [full_access] (case_add_task env id).
Proof.
  intros w. cbn beta iota. unfold_rest; unfold_monad.
  destruct (case_access env id [full_access]) eqn:Hacc; cbn [negb];
    split_paths; authorized_leaf.
Qed.

Lemma case_task_view_authorized env id :
  authorized_by env [BusinessCalled "tasks_get"]
    (λ w, Task.task_case_id <$> tasks (db w) !! id) [read_only; full_access]
    (case_task_view env id).
Proof.
  intros w. destruct (tasks (db w) !! id) as [row|] eqn:Hrow;
    cbn [fmap option_fmap option_map]; fetched_then_authorized Hrow.
Qed.

Lemma case_delete_task_authorized env id :
  authorized_by env [BusinessCalled "tasks_get"]
    (λ w, Task.task_case_id <$> tasks (db w) !! id) [full_access]
    (case_delete_task env id).
Proof.
  intros w. destruct (tasks (db w) !! id) as [row|] eqn:Hrow;
    cbn [fmap option_fmap option_map]; fetched_then_authorized Hrow.
Qed.


(** ** The claims *)

(** C1, as amended.  Each handler that creates, updates, deletes or gets
    an IOC or a task authorizes first.  Add-IOC and add-task check full
    access on the case of the path before anything else.  Update, delete
    and get by identifier first fetch the entity through [iocs_get] or
    [tasks_get]: a missing entity is answered not-found with no check at
    all, a found one is followed at once by the access check on its owning
    case (full access to change, read-only or full access to read), decided
    by the access controller.  Everything else the handler does comes after
    that one check; entity data is answered only when it was granted; when
    it was refused the handler stops there with the access-denied response,
    rows and session untouched. *)
Theorem rest_handlers_authorize_first (env : Env) (case_id identifier : Z) :
  authorized_by env [] (λ _, Some case_id) [full_access]
    (add_ioc_to_case env case_id)
  ∧ authorized_by env [BusinessCalled "iocs_get"]
      (λ w, Ioc.case_id <$> iocs (db w) !! identifier) [full_access]
      (update_ioc env case_id identifier)
  ∧ authorized_by env [BusinessCalled "iocs_get"]
      (λ w, Ioc.case_id <$> iocs (db w) !! identifier) [full_access]
      (delete_case_ioc env case_id identifier)
  ∧ authorized_by env [BusinessCalled "iocs_get"]
      (λ w, Ioc.case_id <$> iocs (db w) !! identifier)
      [read_only; full_access]
      (get_case_ioc env case_id identifier)
  ∧ authorized_by env [] (λ _, Some identifier) [full_access]
      (case_add_task env identifier)
  ∧ authorized_by env [BusinessCalled "tasks_get"]
      (λ w, Task.task_case_id <$> tasks (db w) !! identifier)
      [read_only; full_access]
      (case_task_view env identifier)
  ∧ authorized_by env [BusinessCalled "tasks_get"]
      (λ w, Task.task_case_id <$> tasks (db w) !! identifier) [full_access]
      (case_delete_task env identifier).
Proof.
  repeat split.
  - apply add_ioc_to_case_authorized.
  - apply update_ioc_authorized.
  - apply delete_case_ioc_authorized.
  - apply get_case_ioc_authorized.
  - apply case_add_task_authorized.
  - apply case_task_view_authorized.
  - apply case_delete_task_authorized.
Qed.

(** C1, as stated, fails: getting IOC 1 of case 5 enters the business
    operation [iocs_get] before any access check has been evaluated. *)
Lemma get_case_ioc_fetches_before_access_check :
  (get_case_ioc Demo.env 5 1 Demo.world).1
  = Returned (response_api_success (Demo.dump_ioc Demo.ioc_a))
  ∧ journal (get_case_ioc Demo.env 5 1 Demo.world).2
    = [BusinessCalled "iocs_get"; AccessChecked 5 [read_only; full_access] true]
  ∧ checked_first false (journal (get_case_ioc Demo.env 5 1 Demo.world).2)
    = false.
Proof. vm_compute. done. Qed.







(** C4, as amended.  For an identifier that matches no IOC, the REST
    handlers answer not-found and touch nothing.  The business functions
    called with it do not: [iocs_update] raises a
    [BusinessProcessingError], "Unexpected error server-side" wrapping
    "Invalid IOC ID for this case", and [iocs_delete], which calls its
    pre-load hook before looking the identifier up, raises whatever that
    hook raises, a validation error included, and otherwise the
    [BusinessProcessingError] "Not a valid IOC for this case". *)
Theorem missing_ioc_outcomes (env : Env) (identifier : Z) (w : World) :
  iocs (db w) !! identifier = None →
  (∀ case_id,
     delete_case_ioc env case_id identifier w
     = (Returned response_api_not_found, record (BusinessCalled "iocs_get") w))
  ∧ (∀ case_id,
       update_ioc env case_id identifier w
       = (Returned response_api_not_found, record (BusinessCalled "iocs_get") w))
  ∧ (∀ json,
       iocs_update env identifier json w
       = (Raised (BusinessProcessingError "Unexpected error server-side"
                    (Some (Cause (BusinessProcessingError
                                    "Invalid IOC ID for this case" None)))),
          w))
  ∧ iocs_delete env identifier w
    = (Raised
         match module_hook env "on_preload_ioc_delete" (PyInt identifier) None
         with
         | Raised e => e
         | Returned _ =>
             BusinessProcessingError "Not a valid IOC for this case" None
         end,
       record (HookCalled "on_preload_ioc_delete") w).
Proof.
  intros Hnone. repeat split.
  - intros case_id. unfold_rest; unfold_monad. step. by rewrite Hnone.
  - intros case_id. unfold_rest; unfold_monad. step. by rewrite Hnone.
  - intros json. unfold_business; unfold_monad. by rewrite Hnone.
  - unfold_business; unfold_monad.
    destruct (module_hook env _ _ _); step; [|done]. by rewrite Hnone.
Qed.

Lemma missing_ioc_outcomes_witness :
  iocs (db Demo.world) !! 9 = None
  ∧ delete_case_ioc Demo.env 5 9 Demo.world
    = (Returned response_api_not_found,
       record (BusinessCalled "iocs_get") Demo.world)
  ∧ update_ioc Demo.env 5 9 Demo.world
    = (Returned response_api_not_found,
       record (BusinessCalled "iocs_get") Demo.world)
  ∧ iocs_update Demo.env 9 Demo.good_body Demo.world
    = (Raised (BusinessProcessingError "Unexpected error server-side"
                 (Some (Cause (BusinessProcessingError
                                 "Invalid IOC ID for this case" None)))),
       Demo.world)
  ∧ iocs_delete Demo.env 9 Demo.world
    = (Raised (BusinessProcessingError "Not a valid IOC for this case" None),
       record (HookCalled "on_preload_ioc_delete") Demo.world)
  ∧ iocs_delete DemoInvalid.env 9 Demo.world
    = (Raised (ValidationError [("ioc_id", ["Refused by a module."])]),
       record (HookCalled "on_preload_ioc_delete") Demo.world).
Proof.
  split; [reflexivity|].
  destruct (missing_ioc_outcomes Demo.env 9 Demo.world eq_refl)
    as (Hdel & Hupd & Hbupd & Hbdel).
  destruct (missing_ioc_outcomes DemoInvalid.env 9 Demo.world eq_refl)
    as (_ & _ & _ & Hinvalid).
  split; [apply Hdel|]. split; [apply Hupd|]. split; [apply Hbupd|].
  split; [exact Hbdel | exact Hinvalid].
Defined.

(** C4, as stated, fails: deleting identifier 9, which matches no IOC,
    through the business function ends in a generic business error, not in
    a not-found outcome. *)
Lemma iocs_delete_missing_is_business_error :
  iocs (db Demo.world) !! 9 = None
  ∧ (iocs_delete Demo.env 9 Demo.world).1
    = Raised (BusinessProcessingError "Not a valid IOC for this case" None)
  ∧ (iocs_delete Demo.env 9 Demo.world).1 ≠ Raised ObjectNotFoundError.
Proof. vm_compute. repeat split; done. Qed.

(** C5, as amended.  A create or update whose payload has schema errors
    raises [BusinessProcessingError "Data error"] carrying the per-field
    messages of the schema, and leaves the rows and the session as they
    were: only the pre-load hook has run. *)
Theorem invalid_payload_is_data_error (env : Env) (w : World) :
  (∀ json c d,
     let data := <["case_id" := JInt c]> d in
     module_hook env "on_preload_ioc_create" (PyDict json) (Some c)
     = Returned (PyDict d) →
     schema_errors env data false ≠ [] →
     iocs_create env json c w
     = (Raised (BusinessProcessingError "Data error"
                  (Some (Messages (schema_errors env data false)))),
        record (HookCalled "on_preload_ioc_create") w))
  ∧ (∀ identifier json stored d,
       let ioc := Ioc.set_ioc_id identifier stored in
       let data :=
         <["case_id" := JInt (Ioc.case_id ioc)]>
           (<["ioc_id" := JInt identifier]> d) in
       iocs (db w) !! identifier = Some stored →
       module_hook env "on_preload_ioc_update" (PyDict json)
         (Some (Ioc.case_id ioc))
       = Returned (PyDict d) →
       schema_errors env data true ≠ [] →
       iocs_update env identifier json w
       = (Raised (BusinessProcessingError "Data error"
                    (Some (Messages (schema_errors env data true)))),
          record (HookCalled "on_preload_ioc_update") w)).
Proof.
  split.
  - intros json c d data Hpre Herr. subst data.
    unfold_business; unfold_monad. rewrite Hpre. step.
    destruct (schema_errors env _ false) as [|m ms]; [done|]. reflexivity.
  - intros identifier json stored d ioc data Hrow Hpre Herr. subst data ioc.
    unfold_business; unfold_monad. rewrite Hrow. step. rewrite Hpre. step.
    destruct (schema_errors env _ true) as [|m ms]; [done|]. reflexivity.
Qed.

Lemma invalid_payload_is_data_error_witness :
  let messages := [("ioc_value", ["Not a valid string."])] in
  iocs_create Demo.env Demo.bad_body 5 Demo.empty_world
  = (Raised (BusinessProcessingError "Data error" (Some (Messages messages))),
     record (HookCalled "on_preload_ioc_create") Demo.empty_world)
  ∧ iocs_update Demo.env 1 Demo.bad_body Demo.world
    = (Raised (BusinessProcessingError "Data error" (Some (Messages messages))),
       record (HookCalled "on_preload_ioc_update") Demo.world).
Proof.
  split.
  - apply (proj1 (invalid_payload_is_data_error Demo.env Demo.empty_world)
             Demo.bad_body 5 Demo.bad_body); [reflexivity | by vm_compute].
  - apply (proj2 (invalid_payload_is_data_error Demo.env Demo.world)
             1 Demo.bad_body Demo.ioc_a Demo.bad_body);
      [reflexivity | reflexivity | by vm_compute].
Defined.

(** C5, as stated, fails: a body whose [ioc_value] is not a string has
    schema errors, and the create raises a [BusinessProcessingError], not a
    [ValidationError]. *)
Lemma invalid_payload_is_not_a_validation_error :
  let run := iocs_create Demo.env Demo.bad_body 5 Demo.empty_world in
  schema_errors Demo.env (<["case_id" := JInt 5]> Demo.bad_body) false
  = [("ioc_value", ["Not a valid string."])]
  ∧ run.1 = Raised (BusinessProcessingError "Data error"
                      (Some (Messages [("ioc_value", ["Not a valid string."])])))
  ∧ ∀ messages, run.1 ≠ Raised (ValidationError messages).
Proof. vm_compute. repeat split; done. Qed.

(** C6.  Deleting or getting an IOC that exists, through a path whose case
    is not the owning one, by a user who holds the required access on the
    owning case: the answer is not-found and the row is still there. *)
Theorem cross_case_identifier_is_not_found (env : Env)
    (case_id identifier : Z) (w : World) (row : Ioc.t) :
  iocs (db w) !! identifier = Some row →
  Ioc.case_id row ≠ case_id →
  (case_access env (Ioc.case_id row) [full_access] = true →
   delete_case_ioc env case_id identifier w
   = (Returned response_api_not_found,
      record (AccessChecked (Ioc.case_id row) [full_access] true)
        (record (BusinessCalled "iocs_get") w))
   ∧ iocs (db (delete_case_ioc env case_id identifier w).2) !! identifier
     = Some row)
  ∧ (case_access env (Ioc.case_id row) [read_only; full_access] = true →
     get_case_ioc env case_id identifier w
     = (Returned response_api_not_found,
        record (AccessChecked (Ioc.case_id row) [read_only; full_access] true)
          (record (BusinessCalled "iocs_get") w))).
Proof.
  intros Hrow Hcase. split.
  - intros Hacc. unfold_rest; unfold_monad. step. rewrite Hrow. step.
    cbn [Ioc.case_id Ioc.set_ioc_id]. rewrite Hacc. step.
    destruct (decide (Ioc.case_id row ≠ case_id)); [done | contradiction].
  - intros Hacc. unfold_rest; unfold_monad. step. rewrite Hrow. step.
    cbn [Ioc.case_id Ioc.set_ioc_id]. rewrite Hacc. step.
    destruct (decide (Ioc.case_id row ≠ case_id)); [done | contradiction].
Qed.

Lemma cross_case_identifier_is_not_found_witness :
  iocs (db Demo.world) !! 1 = Some Demo.ioc_a
  ∧ Ioc.case_id Demo.ioc_a ≠ 6
  ∧ case_access Demo.env 5 [full_access] = true
  ∧ case_access Demo.env 5 [read_only; full_access] = true
  ∧ (delete_case_ioc Demo.env 6 1 Demo.world).1 = Returned response_api_not_found
  ∧ iocs (db (delete_case_ioc Demo.env 6 1 Demo.world).2) !! 1 = Some Demo.ioc_a
  ∧ (get_case_ioc Demo.env 6 1 Demo.world).1 = Returned response_api_not_found.
Proof.
  assert (Hne : Ioc.case_id Demo.ioc_a ≠ 6) by (intros H; discriminate H).
  destruct (cross_case_identifier_is_not_found Demo.env 6 1 Demo.world
              Demo.ioc_a eq_refl Hne) as [Hdel Hget].
  destruct (Hdel eq_refl) as [Hrun Hrow].
  split; [reflexivity|]. split; [exact Hne|].
  split; [reflexivity|]. split; [reflexivity|].
  split; [by rewrite Hrun|]. split; [exact Hrow|].
  by rewrite (Hget eq_refl).
Defined.

(** C9.  Getting, updating or deleting an IOC by identifier checks access
    on the case that owns the IOC, whatever the case of the path: a user
    without the required access on the owning case is answered
    access-denied for that case, also when the path names another case. *)
Theorem access_checked_on_owning_case (env : Env)
    (case_id identifier : Z) (w : World) (row : Ioc.t) :
  iocs (db w) !! identifier = Some row →
  let owner := Ioc.case_id row in
  let fetched := record (BusinessCalled "iocs_get") w in
  (case_access env owner [read_only; full_access] = false →
   get_case_ioc env case_id identifier w
   = (Returned (ac_api_return_access_denied owner),
      record (AccessChecked owner [read_only; full_access] false) fetched))
  ∧ (case_access env owner [full_access] = false →
     update_ioc env case_id identifier w
     = (Returned (ac_api_return_access_denied owner),
        record (AccessChecked owner [full_access] false) fetched)
     ∧ delete_case_ioc env case_id identifier w
       = (Returned (ac_api_return_access_denied owner),
          record (AccessChecked owner [full_access] false) fetched)).
Proof.
  intros Hrow owner fetched. subst owner fetched. split.
  - intros Hacc. unfold_rest; unfold_monad. step. rewrite Hrow. step.
    cbn [Ioc.case_id Ioc.set_ioc_id]. by rewrite Hacc.
  - intros Hacc. split.
    + unfold_rest; unfold_monad. step. rewrite Hrow. step.
      cbn [Ioc.case_id Ioc.set_ioc_id]. by rewrite Hacc.
    + unfold_rest; unfold_monad. step. rewrite Hrow. step.
      cbn [Ioc.case_id Ioc.set_ioc_id]. by rewrite Hacc.
Qed.

Lemma access_checked_on_owning_case_witness :
  iocs (db Demo.world) !! 2 = Some Demo.ioc_b
  ∧ case_access Demo.env 6 [read_only; full_access] = false
  ∧ case_access Demo.env 6 [full_access] = false
  ∧ (get_case_ioc Demo.env 5 2 Demo.world).1
    = Returned (ac_api_return_access_denied 6)
  ∧ (update_ioc Demo.env 5 2 Demo.world).1
    = Returned (ac_api_return_access_denied 6)
  ∧ (delete_case_ioc Demo.env 5 2 Demo.world).1
    = Returned (ac_api_return_access_denied 6).
Proof.
  destruct (access_checked_on_owning_case Demo.env 5 2 Demo.world Demo.ioc_b
              eq_refl) as [Hget Hmut].
  destruct (Hmut eq_refl) as [Hupd Hdel].
  split; [reflexivity|]. split; [reflexivity|]. split; [reflexivity|].
  split; [by rewrite (Hget eq_refl)|].
  split; [by rewrite Hupd | by rewrite Hdel].
Defined.

(** C8.  A success response of the case IOCs list or of the cases list
    carries a payload with exactly the fields [total], [data], [last_page],
    [current_page] and [next_page], read from the page the query returned;
    [next_page] is the number of the next page when the page has a next
    one, and null otherwise. *)
Theorem paginated_payload (env : Env) (w : World) :
  (∀ case_id response,
     (get_case_iocs env case_id w).1 = Returned response →
     exposes_data response = true →
     ∃ query p,
       get_filtered_iocs env query = Some p
       ∧ f_caseid query = case_id
       ∧ response
         = response_api_success
             (JDict [("total", JInt (Pagination.total p));
                     ("data", JList (dump_ioc env <$> Pagination.items p));
                     ("last_page", JInt (Pagination.pages p));
                     ("current_page", JInt (Pagination.page p));
                     ("next_page",
                      if Pagination.has_next p
                      then JInt (Pagination.next_num p) else JNull)])
       ∧ (payload_fields response).*1
         = ["total"; "data"; "last_page"; "current_page"; "next_page"])
  ∧ (∀ response,
       (get_cases env w).1 = Returned response →
       exposes_data response = true →
       ∃ query p,
         get_filtered_cases env query = Some p
         ∧ response
           = response_api_success
               (JDict [("total", JInt (Pagination.total p));
                       ("data", JList (dump_case env <$> Pagination.items p));
                       ("last_page", JInt (Pagination.pages p));
                       ("current_page", JInt (Pagination.page p));
                       ("next_page",
                        if Pagination.has_next p
                        then JInt (Pagination.next_num p) else JNull)])
         ∧ (payload_fields response).*1
           = ["total"; "data"; "last_page"; "current_page"; "next_page"]).
Proof.
  split.
  - intros case_id response Hrun Hdata.
    unfold get_case_iocs, ac_fast_check_current_user_has_case_access in Hrun.
    unfold_monad. step.
    destruct (case_access env case_id _); cbn [negb fst] in Hrun;
      [|by simplify_eq/=].
    match type of Hrun with
    | context [get_filtered_iocs env ?q] =>
        destruct (get_filtered_iocs env q) as [p|] eqn:Hpage;
        [exists q, p | by simplify_eq/=]
    end.
    cbn [fst] in Hrun. by simplify_eq.
  - intros response Hrun Hdata. unfold get_cases in Hrun. unfold_monad.
    match type of Hrun with
    | context [get_filtered_cases env ?q] =>
        destruct (get_filtered_cases env q) as [p|] eqn:Hpage;
        [exists q, p | by simplify_eq/=]
    end.
    cbn [fst] in Hrun. by simplify_eq.
Qed.

Lemma paginated_payload_witness :
  let iocs_response :=
    response_api_success
      (JDict [("total", JInt 11);
              ("data", JList [Demo.dump_ioc Demo.ioc_a]);
              ("last_page", JInt 2);
              ("current_page", JInt 1);
              ("next_page", JInt 2)]) in
  let cases_response :=
    response_api_success
      (JDict [("total", JInt 1);
              ("data", JList [Demo.dump_case (Case.mk 5 "alpha")]);
              ("last_page", JInt 1);
              ("current_page", JInt 1);
              ("next_page", JNull)]) in
  ((get_case_iocs Demo.env 5 Demo.world).1 = Returned iocs_response
   ∧ exposes_data iocs_response = true
   ∧ (payload_fields iocs_response).*1
     = ["total"; "data"; "last_page"; "current_page"; "next_page"])
  ∧ ((get_cases Demo.env Demo.world).1 = Returned cases_response
     ∧ exposes_data cases_response = true
     ∧ (payload_fields cases_response).*1
       = ["total"; "data"; "last_page"; "current_page"; "next_page"]).
Proof.
  intros iocs_response cases_response.
  destruct (paginated_payload Demo.env Demo.world) as [Hiocs Hcases].
  split.
  - destruct (Hiocs 5 iocs_response eq_refl eq_refl)
      as (q & p & Hp & Hc & Hr & Hf).
    split; [reflexivity|]. split; [reflexivity | exact Hf].
  - destruct (Hcases cases_response eq_refl eq_refl) as (q & p & Hp & Hr & Hf).
    split; [reflexivity|]. split; [reflexivity | exact Hf].
Defined.

(** *** The filter query *)

Lemma Forall_append_if_not_None {A} (r : Ioc.t) (arg : option A)
    (cond : A → Condition) (cs : list Condition) :
  Forall (holds r) (append_if_not_None arg cond cs)
  ↔ Forall (holds r) cs ∧ match arg with Some v => holds r (cond v) | None => True end.
Proof.
  destruct arg as [v|]; simpl.
  - rewrite Forall_app, Forall_singleton. done.
  - tauto.
Qed.

Lemma append_if_not_None_app {A} (arg : option A) (cond : A → Condition)
    (cs : list Condition) :
  append_if_not_None arg cond cs = cs ++ omap id [cond <$> arg].
Proof. destruct arg; simpl; [done | by rewrite app_nil_r]. Qed.

Lemma agrees_int (r : Ioc.t) (col : Column) (n : Z) (arg : option Z) :
  column_value col r = SqlInt n →
  match arg with Some v => holds r (ColumnEq col (SqlInt v)) | None => True end
  ↔ agrees arg n.
Proof.
  intros Hcol. destruct arg as [v|]; simpl; [|done].
  rewrite Hcol. split; congruence.
Qed.

Lemma agrees_str (r : Ioc.t) (col : Column) (s : string) (arg : option string) :
  column_value col r = SqlStr s →
  match arg with Some v => holds r (ColumnEq col (SqlStr v)) | None => True end
  ↔ agrees arg s.
Proof.
  intros Hcol. destruct arg as [v|]; simpl; [|done].
  rewrite Hcol. split; congruence.
Qed.

(** C7.  The query of [iocs_build_filter_query] filters on the conjunction
    of exactly one equality per filter argument that is not [None], in the
    order of the parameters: a row is returned when it agrees with every
    supplied argument, and an omitted argument constrains nothing. *)
Theorem iocs_build_filter_query_is_conjunction
    (ioc_id : option Z) (ioc_uuid ioc_value : option string)
    (ioc_type_id : option Z) (ioc_description : option string)
    (ioc_tlp_id : option Z) (ioc_tags ioc_misp : option string)
    (user_id linked_cases : option Z) (w : World) :
  ∃ query,
    (iocs_build_filter_query ioc_id ioc_uuid ioc_value ioc_type_id
       ioc_description ioc_tlp_id ioc_tags ioc_misp user_id linked_cases w).1
    = Returned query
    ∧ conditions_of query
      = equality_per_argument ioc_id ioc_uuid ioc_value ioc_type_id
          ioc_description ioc_tlp_id ioc_tags ioc_misp user_id
    ∧ length (conditions_of query)
      = (supplied ioc_id + supplied ioc_uuid + supplied ioc_value
         + supplied ioc_type_id + supplied ioc_description
         + supplied ioc_tlp_id + supplied ioc_tags + supplied ioc_misp
         + supplied user_id)%nat
    ∧ ∀ (rows : list Ioc.t) (r : Ioc.t),
        r ∈ run_query query rows
        ↔ r ∈ rows
          ∧ agrees ioc_id (Ioc.ioc_id r)
          ∧ agrees ioc_uuid (Ioc.ioc_uuid r)
          ∧ agrees ioc_value (Ioc.ioc_value r)
          ∧ agrees ioc_type_id (Ioc.ioc_type_id r)
          ∧ agrees ioc_description (Ioc.ioc_description r)
          ∧ agrees ioc_tlp_id (Ioc.ioc_tlp_id r)
          ∧ agrees ioc_tags (Ioc.ioc_tags r)
          ∧ agrees ioc_misp (Ioc.ioc_misp r)
          ∧ agrees user_id (Ioc.user_id r).
Proof.
  eexists. split.
  { unfold iocs_build_filter_query. destruct linked_cases; reflexivity. }
  split; [|split].
  - cbn [conditions_of]. rewrite !append_if_not_None_app.
    unfold equality_per_argument.
    destruct ioc_id, ioc_uuid, ioc_value, ioc_type_id, ioc_description,
      ioc_tlp_id, ioc_tags, ioc_misp, user_id; reflexivity.
  - cbn [conditions_of].
    destruct ioc_id, ioc_uuid, ioc_value, ioc_type_id, ioc_description,
      ioc_tlp_id, ioc_tags, ioc_misp, user_id; reflexivity.
  - intros rows r. unfold run_query. cbn [conditions_of].
    rewrite list_elem_of_filter, !Forall_append_if_not_None, Forall_nil.
    rewrite (agrees_int r col_ioc_id (Ioc.ioc_id r)) by done.
    rewrite (agrees_str r col_ioc_uuid (Ioc.ioc_uuid r)) by done.
    rewrite (agrees_str r col_ioc_value (Ioc.ioc_value r)) by done.
    rewrite (agrees_int r col_ioc_type_id (Ioc.ioc_type_id r)) by done.
    rewrite (agrees_str r col_ioc_description (Ioc.ioc_description r)) by done.
    rewrite (agrees_int r col_ioc_tlp_id (Ioc.ioc_tlp_id r)) by done.
    rewrite (agrees_str r col_ioc_tags (Ioc.ioc_tags r)) by done.
    rewrite (agrees_str r col_ioc_misp (Ioc.ioc_misp r)) by done.
    rewrite (agrees_int r col_user_id (Ioc.user_id r)) by done.
    tauto.
Qed.

(** C10.  Supplying [linked_cases] returns the same query as omitting it;
    the only difference is the deprecation warning that is logged. *)
Theorem linked_cases_adds_no_condition
    (ioc_id : option Z) (ioc_uuid ioc_value : option string)
    (ioc_type_id : option Z) (ioc_description : option string)
    (ioc_tlp_id : option Z) (ioc_tags ioc_misp : option string)
    (user_id : option Z) (linked_cases : Z) (w : World) :
  let supplied_run :=
    iocs_build_filter_query ioc_id ioc_uuid ioc_value ioc_type_id
      ioc_description ioc_tlp_id ioc_tags ioc_misp user_id (Some linked_cases) w in
  let omitted_run :=
    iocs_build_filter_query ioc_id ioc_uuid ioc_value ioc_type_id
      ioc_description ioc_tlp_id ioc_tags ioc_misp user_id None w in
  (∃ query, omitted_run.1 = Returned query ∧ supplied_run.1 = Returned query)
  ∧ omitted_run.2 = w
  ∧ supplied_run.2 = record (Logged "warning" linked_cases_warning) w.
Proof. split; [by eexists | done]. Qed.

(** ** More properties of the code *)

Ltac unfold_more_rest :=
  unfold create_case, case_routes_get, case_routes_delete, list_own_cases,
    list_own_tasks, list_own_reviews, get_overview_filter in *.


(** X1.  A user with full access on the case of the path posts a payload
    that passes the schema, names a known type and goes through the hooks:
    the answer is the created response for the entity the post-load hook
    handed back, one row is added under a fresh identifier, in the case of
    the path and for the current user, and the journal shows the access
    check, the hooks around the insertion and the activity entry last. *)
Theorem add_ioc_to_case_creates (env : Env) (case_id : Z) (w : World)
    (d : Dict) (i : Ioc.t) :
  let data := <["case_id" := JInt case_id]> d in
  let loaded := merge_fields data Ioc.blank in
  let n := fresh_ioc_id (iocs (db w)) in
  let row := Ioc.set_ioc_id n (Ioc.set_user_id (current_user_id env) loaded) in
  let run := add_ioc_to_case env case_id w in
  case_access env case_id [full_access] = true →
  module_hook env "on_preload_ioc_create" (PyDict (request_get_json env))
    (Some case_id) = Returned (PyDict d) →
  schema_errors env data false = [] →
  ioc_type_known env (Ioc.ioc_type_id loaded) = true →
  module_hook env "on_postload_ioc_create" (PyIoc row) (Some case_id)
  = Returned (PyIoc i) →
  run.1 = Returned (response_api_created (dump_ioc env i))
  ∧ iocs (db w) !! n = None
  ∧ iocs (db run.2) = <[n := row]> (iocs (db w))
  ∧ Ioc.case_id row = case_id
  ∧ Ioc.user_id row = current_user_id env
  ∧ journal run.2
    = journal w ++ [AccessChecked case_id [full_access] true;
                    BusinessCalled "iocs_create";
                    HookCalled "on_preload_ioc_create"; IocInserted n;
                    HookCalled "on_postload_ioc_create";
                    ActivityTracked ("added ioc " +:+ quoted (Ioc.ioc_value i))
                                    case_id].
Proof.
  intros data loaded n row run Hacc Hpre Hschema Htype Hpost.
  subst run row n loaded data.
  unfold_rest; unfold_business; unfold_monad.
  rewrite Hacc. step. rewrite Hpre. step. rewrite Hschema. step.
  rewrite Htype. step. rewrite Hpost. step. cbn [truthy]. step.
  split; [done|]. split; [apply fresh_ioc_id_free|]. split; [done|].
  split; [apply int_field_insert|]. split; [done|].
  by rewrite <- !app_assoc.
Qed.

Lemma add_ioc_to_case_creates_witness :
  let row := Ioc.mk 1 "" "1.2.3.4" 1 "" 0 "" "" 7 5 in
  let run := add_ioc_to_case Demo.env 5 Demo.empty_world in
  run.1 = Returned (response_api_created (Demo.dump_ioc row))
  ∧ iocs (db Demo.empty_world) !! 1 = None
  ∧ iocs (db run.2) = <[1 := row]> (iocs (db Demo.empty_world))
  ∧ Ioc.case_id row = 5
  ∧ Ioc.user_id row = 7
  ∧ journal run.2
    = [AccessChecked 5 [full_access] true; BusinessCalled "iocs_create";
       HookCalled "on_preload_ioc_create"; IocInserted 1;
       HookCalled "on_postload_ioc_create";
       ActivityTracked ("added ioc " +:+ quoted "1.2.3.4") 5].
Proof.
  apply (add_ioc_to_case_creates Demo.env 5 Demo.empty_world Demo.good_body
           (Ioc.mk 1 "" "1.2.3.4" 1 "" 0 "" "" 7 5)); reflexivity.
Defined.

(** X2.  When the schema rejects the payload, [add_ioc_to_case] logs the
    exception, which carries the per-field messages of the schema, and
    answers with the message "Data error" alone: the per-field messages
    are not in the response; the rows and the session are as before. *)
Theorem add_ioc_to_case_drops_field_messages (env : Env) (case_id : Z)
    (w : World) (d : Dict) :
  let data := <["case_id" := JInt case_id]> d in
  case_access env case_id [full_access] = true →
  module_hook env "on_preload_ioc_create" (PyDict (request_get_json env))
    (Some case_id) = Returned (PyDict d) →
  schema_errors env data false ≠ [] →
  add_ioc_to_case env case_id w
  = (Returned (response_api_error "Data error" None),
     mkWorld (db w) (dirty w)
       (journal w ++ [AccessChecked case_id [full_access] true;
                      BusinessCalled "iocs_create";
                      HookCalled "on_preload_ioc_create";
                      LoggedException "error"
                        (BusinessProcessingError "Data error"
                           (Some (Messages (schema_errors env data false))))])).
Proof.
  intros data Hacc Hpre Herr. subst data.
  unfold_rest; unfold_business; unfold_monad.
  rewrite Hacc. step. rewrite Hpre. step.
  destruct (schema_errors env _ false) as [|m ms]; [done|]. step.
  by rewrite <- !app_assoc.
Qed.

Lemma add_ioc_to_case_drops_field_messages_witness :
  let env := Demo.env_with Demo.bad_body Demo.identity_hook in
  let messages := [("ioc_value", ["Not a valid string."])] in
  schema_errors env (<["case_id" := JInt 5]> Demo.bad_body) false = messages
  ∧ add_ioc_to_case env 5 Demo.world
    = (Returned (response_api_error "Data error" None),
       mkWorld (db Demo.world) None
         [AccessChecked 5 [full_access] true; BusinessCalled "iocs_create";
          HookCalled "on_preload_ioc_create";
          LoggedException "error"
            (BusinessProcessingError "Data error" (Some (Messages messages)))]).
Proof.
  split; [reflexivity|].
  apply (add_ioc_to_case_drops_field_messages
           (Demo.env_with Demo.bad_body Demo.identity_hook) 5 Demo.world
           Demo.bad_body); [reflexivity | reflexivity | by vm_compute].
Defined.


Ltac run_more_rest m :=
  let r := fresh "r" in let w' := fresh "w'" in let Hrun := fresh "Hrun" in
  destruct m as [r w'] eqn:Hrun;
  unfold_more_rest; unfold_rest; unfold_monad; split_paths; decide_access.

Lemma add_ioc_to_case_contains env c w e :
  (add_ioc_to_case env c w).1 = Raised e → is_BusinessProcessingError e = false.
Proof.
  unfold add_ioc_to_case, ac_fast_check_current_user_has_case_access, business.
  unfold_monad.
  destruct (case_access env c [full_access]); cbn [negb]; [|done].
  match goal with
  | |- context [iocs_create env ?j c ?w1] =>
      destruct (iocs_create env j c w1) as [[[ioc msg]|e'] w2]
  end; [done|].
  destruct e'; cbn [fst]; intros; by simplify_eq.
Qed.

(** X3.  No handler lets an exception it catches escape: the ones that
    catch [BusinessProcessingError] never raise it, and the ones that also
    catch [ObjectNotFoundError] never raise that either, whatever the
    operations of the business layer raise. *)
Theorem handlers_contain_business_errors (env : Env) (cenv : CasesEnv)
    (case_id identifier : Z) (w : World) :
  (∀ e, (add_ioc_to_case env case_id w).1 = Raised e →
        is_BusinessProcessingError e = false)
  ∧ (∀ e, (case_add_task env identifier w).1 = Raised e →
          is_BusinessProcessingError e = false)
  ∧ (∀ e, (create_case env cenv w).1 = Raised e →
          is_BusinessProcessingError e = false)
  ∧ (∀ e, (case_routes_delete env cenv identifier w).1 = Raised e →
          is_BusinessProcessingError e = false)
  ∧ (∀ e, (update_ioc env case_id identifier w).1 = Raised e →
          is_BusinessProcessingError e = false
          ∧ is_ObjectNotFoundError e = false)
  ∧ (∀ e, (delete_case_ioc env case_id identifier w).1 = Raised e →
          is_BusinessProcessingError e = false
          ∧ is_ObjectNotFoundError e = false)
  ∧ (∀ e, (case_delete_task env identifier w).1 = Raised e →
          is_BusinessProcessingError e = false
          ∧ is_ObjectNotFoundError e = false).
Proof.
  split; [intros e; apply add_ioc_to_case_contains|].
  split; [intros e; run_rest (case_add_task env identifier w); intros ?; by simplify_eq/=|].
  split; [intros e; run_more_rest (create_case env cenv w); intros ?; by simplify_eq/=|].
  split; [intros e; run_more_rest (case_routes_delete env cenv identifier w);
          intros ?; by simplify_eq/=|].
  split; [intros e; run_rest (update_ioc env case_id identifier w);
          intros ?; by simplify_eq/=|].
  split; [intros e; run_rest (delete_case_ioc env case_id identifier w);
          intros ?; by simplify_eq/=|].
  intros e; run_rest (case_delete_task env identifier w);
    intros ?; by simplify_eq/=.
Qed.

(** X4.  Whatever goes wrong inside [iocs_update], its caller only ever
    sees a [BusinessProcessingError]: "Data error" with the field messages
    for a validation error, "Unexpected error server-side" wrapping the
    cause for anything else. *)
Theorem iocs_update_raises_business_errors_only (env : Env) (identifier : Z)
    (json : Dict) (w : World) :
  match (iocs_update env identifier json w).1 with
  | Returned _ => True
  | Raised e =>
      (∃ messages,
         e = BusinessProcessingError "Data error" (Some (Messages messages)))
      ∨ (∃ cause,
           is_ValidationError cause = false
           ∧ e = BusinessProcessingError "Unexpected error server-side"
                   (Some (Cause cause)))
  end.
Proof.
  unfold iocs_update, try_except.
  match goal with
  | |- context [match ?body w with _ => _ end] =>
      destruct (body w) as [[a|e] w1]
  end; cbn [fst]; [done|].
  destruct e; unfold iocs_update_handlers, raise; cbn [fst];
    first [ left; eexists; reflexivity
          | right; eexists; split; [|reflexivity]; reflexivity ].
Qed.

(** X5.  When the pre-load hook raises, nothing is persisted and nothing is
    tracked: only the hook call is journalled.  [iocs_create] and
    [iocs_delete] pass the exception on as it is, [iocs_update] wraps it. *)
Theorem pre_hook_abort_persists_nothing (env : Env) (w : World) (e : Exn) :
  (∀ json c,
     module_hook env "on_preload_ioc_create" (PyDict json) (Some c) = Raised e →
     iocs_create env json c w
     = (Raised e, record (HookCalled "on_preload_ioc_create") w))
  ∧ (∀ identifier,
       module_hook env "on_preload_ioc_delete" (PyInt identifier) None
       = Raised e →
       iocs_delete env identifier w
       = (Raised e, record (HookCalled "on_preload_ioc_delete") w))
  ∧ (∀ identifier json stored,
       iocs (db w) !! identifier = Some stored →
       module_hook env "on_preload_ioc_update" (PyDict json)
         (Some (Ioc.case_id stored)) = Raised e →
       iocs_update env identifier json w
       = (Raised (match e with
                  | ValidationError messages =>
                      BusinessProcessingError "Data error"
                        (Some (Messages messages))
                  | _ =>
                      BusinessProcessingError "Unexpected error server-side"
                        (Some (Cause e))
                  end),
          record (HookCalled "on_preload_ioc_update") w)).
Proof.
  split; [|split].
  - intros json c Hpre. unfold_business; unfold_monad. by rewrite Hpre.
  - intros identifier Hpre. unfold_business; unfold_monad. by rewrite Hpre.
  - intros identifier json stored Hrow Hpre. unfold_business; unfold_monad.
    rewrite Hrow. step. cbn [Ioc.case_id Ioc.set_ioc_id]. rewrite Hpre.
    by destruct e.
Qed.

Lemma pre_hook_abort_persists_nothing_witness :
  let env := Demo.env_with Demo.good_body DemoCases.aborting_pre_hook in
  let e := RuntimeError "aborted" in
  iocs_create env Demo.good_body 5 Demo.world
  = (Raised e, record (HookCalled "on_preload_ioc_create") Demo.world)
  ∧ iocs_delete env 1 Demo.world
    = (Raised e, record (HookCalled "on_preload_ioc_delete") Demo.world)
  ∧ iocs_update env 1 Demo.good_body Demo.world
    = (Raised (BusinessProcessingError "Unexpected error server-side"
                 (Some (Cause e))),
       record (HookCalled "on_preload_ioc_update") Demo.world).
Proof.
  destruct (pre_hook_abort_persists_nothing
              (Demo.env_with Demo.good_body DemoCases.aborting_pre_hook)
              Demo.world (RuntimeError "aborted")) as (Hc & Hd & Hu).
  split; [apply Hc; reflexivity|].
  split; [apply Hd; reflexivity|].
  apply (Hu 1 Demo.good_body Demo.ioc_a); reflexivity.
Defined.

(** X6.  A payload naming an unknown IOC type commits nothing.  The create
    raises "Not a valid IOC type"; the update raises it wrapped as
    "Unexpected error server-side", with the instance left modified in the
    session but the stored row untouched. *)
Theorem unknown_ioc_type_commits_nothing (env : Env) (w : World) :
  (∀ json c d,
     let data := <["case_id" := JInt c]> d in
     module_hook env "on_preload_ioc_create" (PyDict json) (Some c)
     = Returned (PyDict d) →
     schema_errors env data false = [] →
     ioc_type_known env (Ioc.ioc_type_id (merge_fields data Ioc.blank)) = false →
     iocs_create env json c w
     = (Raised (BusinessProcessingError "Not a valid IOC type" None),
        record (HookCalled "on_preload_ioc_create") w))
  ∧ (∀ identifier json stored d,
       let ioc := Ioc.set_ioc_id identifier stored in
       let data :=
         <["case_id" := JInt (Ioc.case_id ioc)]>
           (<["ioc_id" := JInt identifier]> d) in
       let ioc_sc :=
         Ioc.set_user_id (current_user_id env) (merge_fields data ioc) in
       iocs (db w) !! identifier = Some stored →
       module_hook env "on_preload_ioc_update" (PyDict json)
         (Some (Ioc.case_id ioc)) = Returned (PyDict d) →
       schema_errors env data true = [] →
       ioc_type_known env (Ioc.ioc_type_id ioc_sc) = false →
       iocs_update env identifier json w
       = (Raised (BusinessProcessingError "Unexpected error server-side"
                    (Some (Cause (BusinessProcessingError
                                    "Not a valid IOC type" None)))),
          mkWorld (db w) (Some (identifier, ioc_sc))
                  (journal w ++ [HookCalled "on_preload_ioc_update"]))).
Proof.
  split.
  - intros json c d data Hpre Hschema Htype. subst data.
    unfold_business; unfold_monad.
    rewrite Hpre. step. rewrite Hschema. step. by rewrite Htype.
  - intros identifier json stored d ioc data ioc_sc Hrow Hpre Hschema Htype.
    subst ioc_sc data ioc. unfold_business; unfold_monad.
    rewrite Hrow. step. rewrite Hpre. step. rewrite Hschema. step.
    by rewrite Htype.
Qed.

Lemma unknown_ioc_type_commits_nothing_witness :
  let body := DemoCases.unknown_type_body in
  iocs_create Demo.env body 5 Demo.world
  = (Raised (BusinessProcessingError "Not a valid IOC type" None),
     record (HookCalled "on_preload_ioc_create") Demo.world)
  ∧ (iocs_update Demo.env 1 body Demo.world).1
    = Raised (BusinessProcessingError "Unexpected error server-side"
                (Some (Cause (BusinessProcessingError
                                "Not a valid IOC type" None))))
  ∧ db (iocs_update Demo.env 1 body Demo.world).2 = db Demo.world.
Proof.
  destruct (unknown_ioc_type_commits_nothing Demo.env Demo.world) as [Hc Hu].
  split.
  - apply (Hc DemoCases.unknown_type_body 5 DemoCases.unknown_type_body);
      reflexivity.
  - rewrite (Hu 1 DemoCases.unknown_type_body Demo.ioc_a
               DemoCases.unknown_type_body eq_refl eq_refl eq_refl eq_refl).
    split; reflexivity.
Defined.

Lemma iocs_update_returns (env : Env) (identifier : Z)
    (json : Dict) (w : World) (ioc : Ioc.t) (message : string) :
  (iocs_update env identifier json w).1 = Returned (ioc, message) →
  ∃ stored committed,
    iocs (db w) !! identifier = Some stored
    ∧ Ioc.ioc_id committed = identifier
    ∧ Ioc.case_id committed = Ioc.case_id stored
    ∧ Ioc.user_id committed = current_user_id env
    ∧ iocs (db (iocs_update env identifier json w).2)
      = <[identifier := committed]> (iocs (db w))
    ∧ tasks (db (iocs_update env identifier json w).2) = tasks (db w)
    ∧ ioc = hook_edits_instance env "on_postload_ioc_update" committed
              (Some (Ioc.case_id committed)).
Proof.
  destruct (iocs (db w) !! identifier) as [stored|] eqn:Hrow.
  - intros Hret. exists stored. revert Hret.
    run_business (iocs_update env identifier json w); rewrite Hrow in *;
      simplify_eq/=; try done.
    intros [= <- <-].
    match goal with
    | |- context [<[identifier := ?row]> _ = _] => exists row
    end.
    split; [done|].
    cbn [Ioc.ioc_id Ioc.case_id Ioc.user_id Ioc.set_user_id merge_fields].
    rewrite !int_field_insert.
    unfold int_field at 1. rewrite lookup_insert_ne by done.
    rewrite lookup_insert_eq. done.
  - unfold_business; unfold_monad. rewrite Hrow. done.
Qed.

(** X7.  An update that returns cannot renumber the committed row or move
    it to another case, whatever the payload and the pre-load hook say:
    the row committed under the identifier keeps the identifier and the
    owning case of the stored row, its user is the current user, and
    tasks are as before.  The returned entity is that row as the post-load
    hook left it: an attribute the hook edited on the instance differs
    from the committed one. *)
Theorem update_commits_identity_and_owner (env : Env) (identifier : Z)
    (json : Dict) (w : World) (ioc : Ioc.t) (message : string) :
  (iocs_update env identifier json w).1 = Returned (ioc, message) →
  ∃ stored committed,
    iocs (db w) !! identifier = Some stored
    ∧ Ioc.ioc_id committed = identifier
    ∧ Ioc.case_id committed = Ioc.case_id stored
    ∧ Ioc.user_id committed = current_user_id env
    ∧ iocs (db (iocs_update env identifier json w).2)
      = <[identifier := committed]> (iocs (db w))
    ∧ tasks (db (iocs_update env identifier json w).2) = tasks (db w)
    ∧ ioc = hook_edits_instance env "on_postload_ioc_update" committed
              (Some (Ioc.case_id committed)).
Proof. apply iocs_update_returns. Qed.

Lemma update_commits_identity_and_owner_witness :
  let run := iocs_update DemoEdit.env 1 DemoCases.moving_body Demo.world in
  let committed := Ioc.mk 1 "u-1" "4.3.2.1" 1 "" 2 "" "" 7 5 in
  DemoCases.moving_body !! "case_id" = Some (JInt 6)
  ∧ run.1 = Returned (DemoEdit.moved committed,
                      "Updated ioc " +:+ quoted "4.3.2.1")
  ∧ iocs (db run.2) = <[1 := committed]> (iocs (db Demo.world)).
Proof.
  split; [reflexivity|].
  destruct (update_commits_identity_and_owner DemoEdit.env 1
              DemoCases.moving_body Demo.world
              (DemoEdit.moved (Ioc.mk 1 "u-1" "4.3.2.1" 1 "" 2 "" "" 7 5))
              ("Updated ioc " +:+ quoted "4.3.2.1") eq_refl)
    as (stored & committed & _ & _ & _ & _ & Hrows & _ & _).
  split; [reflexivity|].
  rewrite Hrows. f_equal.
  assert (Hrow : iocs (db (iocs_update DemoEdit.env 1 DemoCases.moving_body
                             Demo.world).2) !! 1
                 = Some (Ioc.mk 1 "u-1" "4.3.2.1" 1 "" 2 "" "" 7 5))
    by reflexivity.
  rewrite Hrows, lookup_insert_eq in Hrow. by injection Hrow.
Defined.



Lemma iocs_delete_returns env identifier w message :
  (iocs_delete env identifier w).1 = Returned message →
  ∃ a,
    module_hook env "on_preload_ioc_delete" (PyInt identifier) None = Returned a
    ∧ iocs (db (iocs_delete env identifier w).2)
      = delete identifier (iocs (db w)).
Proof.
  run_business (iocs_delete env identifier w); try done.
  intros _. eexists. split; [done|]. step.
  match goal with
  | H : Ioc.set_ioc_id _ <$> _ = Some _ |- _ =>
      apply fmap_Some in H as (? & ? & ->)
  end.
  done.
Qed.

(** X9.  Round trips.  After a create that returns, the identifier that
    was free holds a row of the given case and the current user; after an
    update that returns, looking the identifier up gives the committed
    row, and the returned entity is that row as the post-load hook left
    it; after a delete that returns, the lookup finds nothing and a second
    delete raises "Not a valid IOC for this case". *)
Theorem mutation_then_lookup (env : Env) (w : World) :
  (∀ json c ioc message,
     let run := iocs_create env json c w in
     run.1 = Returned (ioc, message) →
     ∃ n row,
       (iocs_get_by_identifier n w).1 = Returned None
       ∧ (iocs_get_by_identifier n run.2).1 = Returned (Some row)
       ∧ Ioc.ioc_id row = n
       ∧ Ioc.case_id row = c
       ∧ Ioc.user_id row = current_user_id env)
  ∧ (∀ identifier json ioc message,
       let run := iocs_update env identifier json w in
       run.1 = Returned (ioc, message) →
       ∃ committed,
         (iocs_get_by_identifier identifier run.2).1
         = Returned (Some committed)
         ∧ iocs (db run.2) !! identifier = Some committed
         ∧ ioc = hook_edits_instance env "on_postload_ioc_update" committed
                   (Some (Ioc.case_id committed)))
  ∧ (∀ identifier message,
       let run := iocs_delete env identifier w in
       run.1 = Returned message →
       (iocs_get_by_identifier identifier run.2).1 = Returned None
       ∧ (iocs_delete env identifier run.2).1
         = Raised (BusinessProcessingError "Not a valid IOC for this case" None)).
Proof.
  split; [|split].
  - intros json c ioc message run. subst run.
    run_business (iocs_create env json c w); try done.
    intros _. exists (fresh_ioc_id (iocs (db w))). eexists.
    unfold iocs_get_by_identifier, get_ioc. step.
    rewrite fresh_ioc_id_free, lookup_insert_eq. cbn [fmap option_fmap option_map].
    split; [done|]. split; [done|]. split; [done|].
    split; [apply int_field_insert | done].
  - intros identifier json ioc message run Hret.
    destruct (iocs_update_returns env identifier json w ioc message
                Hret) as (stored & committed & _ & Hid & _ & _ & Hrows & _ & Hioc).
    exists committed.
    unfold iocs_get_by_identifier, get_ioc. step. subst run. rewrite Hrows.
    rewrite lookup_insert_eq. cbn [fmap option_fmap option_map].
    split; [|done]. f_equal. f_equal.
    destruct committed. cbn in Hid. by subst.
  - intros identifier message run Hret. subst run.
    destruct (iocs_delete_returns env identifier w message Hret)
      as (a & Hpre & Hrows).
    unfold iocs_get_by_identifier, get_ioc. step. rewrite Hrows.
    rewrite lookup_delete_eq. split; [done|].
    destruct (iocs_delete env identifier w) as [r w1]. cbn [snd] in *.
    unfold_business; unfold_monad. rewrite Hpre. step. rewrite Hrows.
    by rewrite lookup_delete_eq.
Qed.

Lemma mutation_then_lookup_witness :
  let created := iocs_create Demo.env Demo.good_body 5 Demo.empty_world in
  let updated := iocs_update DemoEdit.env 1 Demo.good_body Demo.world in
  let deleted := iocs_delete Demo.env 1 Demo.world in
  let row := Ioc.mk 1 "" "1.2.3.4" 1 "" 0 "" "" 7 5 in
  (created.1 = Returned (row, "IOC added")
   ∧ ∃ n row,
       (iocs_get_by_identifier n Demo.empty_world).1 = Returned None
       ∧ (iocs_get_by_identifier n created.2).1 = Returned (Some row)
       ∧ Ioc.ioc_id row = n ∧ Ioc.case_id row = 5 ∧ Ioc.user_id row = 7)
  ∧ (updated.1 = Returned (DemoEdit.moved Demo.ioc_a,
                           "Updated ioc " +:+ quoted "1.2.3.4")
     ∧ ∃ committed,
         (iocs_get_by_identifier 1 updated.2).1 = Returned (Some committed)
         ∧ iocs (db updated.2) !! 1 = Some committed
         ∧ DemoEdit.moved Demo.ioc_a
           = hook_edits_instance DemoEdit.env "on_postload_ioc_update"
               committed (Some (Ioc.case_id committed)))
  ∧ (deleted.1 = Returned "IOC 1 deleted"
     ∧ (iocs_get_by_identifier 1 deleted.2).1 = Returned None
     ∧ (iocs_delete Demo.env 1 deleted.2).1
       = Raised (BusinessProcessingError "Not a valid IOC for this case" None)).
Proof.
  destruct (mutation_then_lookup Demo.env Demo.empty_world) as (Hc & _ & _).
  destruct (mutation_then_lookup DemoEdit.env Demo.world) as (_ & Hu & _).
  destruct (mutation_then_lookup Demo.env Demo.world) as (_ & _ & Hd).
  split; [split; [reflexivity | by apply (Hc Demo.good_body 5 _ _ eq_refl)]|].
  split; [split; [reflexivity | by apply (Hu 1 Demo.good_body _ _ eq_refl)]|].
  split; [reflexivity | by apply (Hd 1 _ eq_refl)].
Defined.

(** X10.  When access on the owning case of a task is refused,
    [case_task_view] answers access-denied for the owning case, while
    [case_delete_task] puts the task identifier where the case belongs. *)
Theorem task_handlers_denied_case (env : Env) (identifier : Z) (w : World)
    (task : Task.t) :
  tasks (db w) !! identifier = Some task →
  let owner := Task.task_case_id task in
  let fetched := record (BusinessCalled "tasks_get") w in
  (case_access env owner [read_only; full_access] = false →
   case_task_view env identifier w
   = (Returned (ac_api_return_access_denied owner),
      record (AccessChecked owner [read_only; full_access] false) fetched))
  ∧ (case_access env owner [full_access] = false →
     case_delete_task env identifier w
     = (Returned (ac_api_return_access_denied identifier),
        record (AccessChecked owner [full_access] false) fetched)).
Proof.
  intros Htask owner fetched. subst owner fetched. split.
  - intros Hacc. unfold_rest; unfold_monad. step. rewrite Htask. step.
    by rewrite Hacc.
  - intros Hacc. unfold_rest; unfold_monad. step. rewrite Htask. step.
    by rewrite Hacc.
Qed.

Lemma task_handlers_denied_case_witness :
  tasks (db Demo.world) !! 2 = Some Demo.task_b
  ∧ case_access Demo.env 6 [read_only; full_access] = false
  ∧ case_access Demo.env 6 [full_access] = false
  ∧ (case_task_view Demo.env 2 Demo.world).1
    = Returned (ac_api_return_access_denied 6)
  ∧ (case_delete_task Demo.env 2 Demo.world).1
    = Returned (ac_api_return_access_denied 2).
Proof.
  destruct (task_handlers_denied_case Demo.env 2 Demo.world Demo.task_b eq_refl)
    as [Hview Hdel].
  split; [reflexivity|]. split; [reflexivity|]. split; [reflexivity|].
  split; [by rewrite (Hview eq_refl) | by rewrite (Hdel eq_refl)].
Defined.

(** X11.  Getting an IOC, or viewing or deleting a task, by an identifier
    that matches nothing answers not-found after the fetch alone: no access
    check is evaluated and nothing is changed. *)
Theorem missing_entity_is_not_found (env : Env) (case_id identifier : Z)
    (w : World) :
  (iocs (db w) !! identifier = None →
   get_case_ioc env case_id identifier w
   = (Returned response_api_not_found, record (BusinessCalled "iocs_get") w))
  ∧ (tasks (db w) !! identifier = None →
     case_task_view env identifier w
     = (Returned response_api_not_found, record (BusinessCalled "tasks_get") w)
     ∧ case_delete_task env identifier w
       = (Returned response_api_not_found,
          record (BusinessCalled "tasks_get") w)).
Proof.
  split.
  - intros Hnone. unfold_rest; unfold_monad. step. by rewrite Hnone.
  - intros Hnone. split; unfold_rest; unfold_monad; step; by rewrite Hnone.
Qed.

Lemma missing_entity_is_not_found_witness :
  iocs (db Demo.world) !! 9 = None
  ∧ tasks (db Demo.world) !! 9 = None
  ∧ get_case_ioc Demo.env 5 9 Demo.world
    = (Returned response_api_not_found,
       record (BusinessCalled "iocs_get") Demo.world)
  ∧ case_task_view Demo.env 9 Demo.world
    = (Returned response_api_not_found,
       record (BusinessCalled "tasks_get") Demo.world)
  ∧ case_delete_task Demo.env 9 Demo.world
    = (Returned response_api_not_found,
       record (BusinessCalled "tasks_get") Demo.world).
Proof.
  destruct (missing_entity_is_not_found Demo.env 5 9 Demo.world) as [Hioc Htask].
  destruct (Htask eq_refl) as [Hview Hdel].
  split; [reflexivity|]. split; [reflexivity|].
  split; [exact (Hioc eq_refl)|]. split; [exact Hview | exact Hdel].
Defined.

(** X12.  For a user without access to a case identifier,
    [case_routes_get] looks the case up first and so answers not-found
    exactly when the case does not exist and access-denied exactly when it
    does, while [case_routes_delete] checks access first and answers
    access-denied either way, without entering [cases_delete]. *)
Theorem case_existence_without_access (env : Env) (cenv : CasesEnv)
    (identifier : Z) (w : World) :
  case_access env identifier [read_only; full_access] = false →
  case_access env identifier [full_access] = false →
  ((case_routes_get env cenv identifier w).1 = Returned response_api_not_found
   ↔ get_case cenv identifier = None)
  ∧ ((case_routes_get env cenv identifier w).1
     = Returned (ac_api_return_access_denied identifier)
     ↔ is_Some (get_case cenv identifier))
  ∧ case_routes_delete env cenv identifier w
    = (Returned (ac_api_return_access_denied identifier),
       record (AccessChecked identifier [full_access] false) w).
Proof.
  intros Hread Hfull.
  unfold case_routes_get, case_routes_delete,
    ac_fast_check_current_user_has_case_access.
  unfold_monad. rewrite Hread, Hfull. cbn [negb].
  destruct (get_case cenv identifier) as [case|]; cbn [fst].
  - split; [split; [done | done]|]. split; [|done].
    split; [by eexists | done].
  - split; [done|]. split; [|done].
    split; [done | by intros [? ?]].
Qed.

Lemma case_existence_without_access_witness :
  let env := DemoCases.env_no_access in
  let cenv := DemoCases.cenv in
  case_access env 5 [read_only; full_access] = false
  ∧ case_access env 5 [full_access] = false
  ∧ (case_routes_get env cenv 5 Demo.world).1
    = Returned (ac_api_return_access_denied 5)
  ∧ (case_routes_get env cenv 9 Demo.world).1 = Returned response_api_not_found
  ∧ (case_routes_delete env cenv 5 Demo.world).1
    = Returned (ac_api_return_access_denied 5)
  ∧ (case_routes_delete env cenv 9 Demo.world).1
    = Returned (ac_api_return_access_denied 9).
Proof.
  destruct (case_existence_without_access DemoCases.env_no_access DemoCases.cenv
              5 Demo.world eq_refl eq_refl) as (_ & Hsome & Hdel5).
  destruct (case_existence_without_access DemoCases.env_no_access DemoCases.cenv
              9 Demo.world eq_refl eq_refl) as (Hnone & _ & Hdel9).
  split; [reflexivity|]. split; [reflexivity|].
  split; [apply Hsome; by eexists|].
  split; [by apply Hnone|].
  split; [by rewrite Hdel5 | by rewrite Hdel9].
Defined.

(** X13.  When the business operation raises a [BusinessProcessingError]
    with data, [create_case] and [update_ioc] answer with the message and
    the data, while [delete_case_ioc], [case_routes_delete],
    [case_add_task] and [case_delete_task] answer with the message only. *)
Theorem business_error_details (env : Env) (cenv : CasesEnv)
    (message : string) (data : option ErrData) (w : World) (rows : Db) :
  let e := BusinessProcessingError message data in
  (business_cases_create cenv (request_get_json env) (db w) = (Raised e, rows) →
   (create_case env cenv w).1 = Returned (response_api_error message data))
  ∧ (∀ case_id identifier stored,
       let ioc := Ioc.set_ioc_id identifier stored in
       iocs (db w) !! identifier = Some stored →
       case_access env (Ioc.case_id ioc) [full_access] = true →
       business_iocs_update env ioc (request_get_json env) (db w)
       = (Raised e, rows) →
       (update_ioc env case_id identifier w).1
       = Returned (response_api_error message data))
  ∧ (∀ identifier stored,
       let ioc := Ioc.set_ioc_id identifier stored in
       iocs (db w) !! identifier = Some stored →
       case_access env (Ioc.case_id ioc) [full_access] = true →
       business_iocs_delete env ioc (db w) = (Raised e, rows) →
       (delete_case_ioc env (Ioc.case_id ioc) identifier w).1
       = Returned (response_api_error message None))
  ∧ (∀ identifier,
       case_access env identifier [full_access] = true →
       business_cases_delete cenv identifier (db w) = (Raised e, rows) →
       (case_routes_delete env cenv identifier w).1
       = Returned (response_api_error message None))
  ∧ (∀ identifier,
       case_access env identifier [full_access] = true →
       business_tasks_create env identifier (request_get_json env) (db w)
       = (Raised e, rows) →
       (case_add_task env identifier w).1
       = Returned (response_api_error message None))
  ∧ (∀ identifier task,
       tasks (db w) !! identifier = Some task →
       case_access env (Task.task_case_id task) [full_access] = true →
       business_tasks_delete env task (db w) = (Raised e, rows) →
       (case_delete_task env identifier w).1
       = Returned (response_api_error message None)).
Proof.
  intros e. subst e.
  split; [|split; [|split; [|split; [|split]]]].
  - intros Hop. unfold_more_rest; unfold_rest; unfold_monad. step.
    by rewrite Hop.
  - intros case_id identifier stored ioc Hrow Hacc Hop. subst ioc.
    unfold_rest; unfold_monad. step. rewrite Hrow. step. rewrite Hacc. step.
    by rewrite Hop.
  - intros identifier stored ioc Hrow Hacc Hop. subst ioc.
    unfold_rest; unfold_monad. step. rewrite Hrow. step. rewrite Hacc. step.
    cbn [Ioc.case_id Ioc.set_ioc_id].
    destruct (decide (Ioc.case_id stored ≠ Ioc.case_id stored)); [done|].
    step. by rewrite Hop.
  - intros identifier Hacc Hop.
    unfold_more_rest; unfold_rest; unfold_monad. rewrite Hacc. step.
    by rewrite Hop.
  - intros identifier Hacc Hop. unfold_rest; unfold_monad. rewrite Hacc. step.
    by rewrite Hop.
  - intros identifier task Htask Hacc Hop. unfold_rest; unfold_monad. step.
    rewrite Htask. step. rewrite Hacc. step. by rewrite Hop.
Qed.

Lemma business_error_details_witness :
  let env := DemoFailing.env in
  let cenv := DemoFailing.cenv in
  let details := Some (Messages [("name", ["taken"])]) in
  (create_case env cenv Demo.world).1
  = Returned (response_api_error "Rejected" details)
  ∧ (update_ioc env 5 1 Demo.world).1
    = Returned (response_api_error "Rejected" details)
  ∧ (delete_case_ioc env 5 1 Demo.world).1
    = Returned (response_api_error "Rejected" None)
  ∧ (case_routes_delete env cenv 5 Demo.world).1
    = Returned (response_api_error "Rejected" None)
  ∧ (case_add_task env 5 Demo.world).1
    = Returned (response_api_error "Rejected" None)
  ∧ (case_delete_task env 1 Demo.world).1
    = Returned (response_api_error "Rejected" None).
Proof.
  destruct (business_error_details DemoFailing.env DemoFailing.cenv "Rejected"
              (Some (Messages [("name", ["taken"])])) Demo.world (db Demo.world))
    as (Hcreate & Hupdate & Hdelete & Hcase & Hadd & Htask).
  split; [by apply Hcreate|].
  split; [by apply (Hupdate 5 1 Demo.ioc_a)|].
  split; [by apply (Hdelete 1 Demo.ioc_a)|].
  split; [by apply Hcase|].
  split; [by apply Hadd|].
  by apply (Htask 1 Demo.task_a).
Defined.

Lemma ascii_lower_inv (a b : Ascii.ascii) :
  b ∈ ["t"; "r"; "u"; "e"]%char →
  ascii_lower a = b →
  a = b ∨ a = Ascii.ascii_of_nat (Ascii.nat_of_ascii b - 32).
Proof.
  intros Hb.
  repeat (apply elem_of_cons in Hb as [-> | Hb]);
    [| | | | by apply elem_of_nil in Hb].
  all: destruct a as [[] [] [] [] [] [] [] []]; vm_compute; intros H;
    first [ discriminate H | by left | by right ].
Qed.

Lemma capitalisations_of_true_eq :
  capitalisations_of_true
  = ["true"; "truE"; "trUe"; "trUE"; "tRue"; "tRuE"; "tRUe"; "tRUE";
     "True"; "TruE"; "TrUe"; "TrUE"; "TRue"; "TRuE"; "TRUe"; "TRUE"].
Proof. reflexivity. Qed.

Lemma lower_is_true (s : string) :
  lower s = "true" ↔ s ∈ capitalisations_of_true.
Proof.
  rewrite capitalisations_of_true_eq. split.
  - destruct s as [|a1 [|a2 [|a3 [|a4 [|a5 s]]]]]; try discriminate.
    cbn [lower]. intros [= H1 H2 H3 H4].
    apply ascii_lower_inv in H1 as [-> | ->];
      [| |repeat constructor].
    all: apply ascii_lower_inv in H2 as [-> | ->];
      [| |repeat constructor].
    all: apply ascii_lower_inv in H3 as [-> | ->];
      [| |repeat constructor].
    all: apply ascii_lower_inv in H4 as [-> | ->];
      [| |repeat constructor].
    all: vm_compute;
      solve [ repeat first [ apply list_elem_of_here
                           | apply list_elem_of_further ] ].
  - intros Hs.
    repeat (apply elem_of_cons in Hs as [-> | Hs]; [reflexivity|]).
    by apply elem_of_nil in Hs.
Qed.

(** X14.  The overview shows closed cases only for the query value [true]
    written exactly so; the dashboard lowers the value first and so accepts
    each of the sixteen capitalisations of [true], and nothing else.
    Neither touches the world. *)
Theorem show_closed_flag (env : Env) (cenv : CasesEnv) (w : World) :
  let value := default "false" (args_str env "show_closed") in
  get_overview_filter env cenv w
  = (Returned
       (response_success ""
          (get_overview_db cenv (current_user_id env)
             (bool_decide (args_str env "show_closed" = Some "true")))),
     w)
  ∧ list_own_cases env cenv w
    = (Returned
         (response_api_success
            (JList (dump_case_details cenv
                      <$> list_user_cases cenv
                            (bool_decide (value ∈ capitalisations_of_true))))),
       w).
Proof.
  intros value. subst value. unfold get_overview_filter, list_own_cases.
  unfold_monad. split.
  - replace (bool_decide (default "false" (args_str env "show_closed") = "true"))
      with (bool_decide (args_str env "show_closed" = Some "true")); [done|].
    apply bool_decide_ext.
    destruct (args_str env "show_closed") as [s|]; cbn [default from_option id].
    + split; [by intros [= ->] | by intros ->].
    + split; intros H; discriminate H.
  - replace (bool_decide
               (lower (default "false" (args_str env "show_closed")) = "true"))
      with (bool_decide (default "false" (args_str env "show_closed")
                         ∈ capitalisations_of_true)); [done|].
    apply bool_decide_ext. symmetry. apply lower_is_true.
Qed.

Lemma show_closed_flag_capitalised :
  let env := DemoCases.env_show_closed "True" in
  get_overview_filter env DemoCases.cenv Demo.world
  = (Returned (response_success "" (JBool false)), Demo.world)
  ∧ list_own_cases env DemoCases.cenv Demo.world
    = (Returned
         (response_api_success
            (JList [Demo.dump_case DemoCases.case_alpha;
                    Demo.dump_case (Case.mk 4 "old")])),
       Demo.world).
Proof.
  destruct (show_closed_flag (DemoCases.env_show_closed "True") DemoCases.cenv
              Demo.world) as [Hover Hdash].
  split; [by rewrite Hover | by rewrite Hdash].
Defined.

Ltac quiet_leaf :=
  step; split; [reflexivity |]; split; [reflexivity |];
  first
    [ exists []; split; [apply delta_nil | constructor]
    | eexists; split; [rewrite <- ?app_assoc; reflexivity | repeat constructor] ].

(** X16.  The read handlers change nothing: the rows and the session are
    as before, and what they add to the journal holds no mutation. *)
Theorem read_handlers_change_nothing (env : Env) (cenv : CasesEnv)
    (case_id identifier : Z) (w : World) (h : M Response) :
  h ∈ [get_case_iocs env case_id; get_case_ioc env case_id identifier;
       case_task_view env identifier; get_cases env;
       case_routes_get env cenv identifier; list_own_cases env cenv;
       list_own_tasks env cenv; list_own_reviews cenv] →
  db (h w).2 = db w
  ∧ dirty (h w).2 = dirty w
  ∧ ∃ delta,
      journal (h w).2 = journal w ++ delta
      ∧ Forall (λ e, is_mutation e = false) delta.
Proof.
  intros Hh.
  repeat (apply elem_of_cons in Hh as [-> | Hh]);
    [| | | | | | | | by apply elem_of_nil in Hh].
  - run_rest (get_case_iocs env case_id w); quiet_leaf.
  - run_rest (get_case_ioc env case_id identifier w); quiet_leaf.
  - run_rest (case_task_view env identifier w); quiet_leaf.
  - run_rest (get_cases env w); quiet_leaf.
  - run_more_rest (case_routes_get env cenv identifier w); quiet_leaf.
  - run_more_rest (list_own_cases env cenv w); quiet_leaf.
  - run_more_rest (list_own_tasks env cenv w); quiet_leaf.
  - run_more_rest (list_own_reviews cenv w); quiet_leaf.
Qed.

Lemma read_handlers_change_nothing_witness :
  let run := get_case_ioc Demo.env 5 1 Demo.world in
  run.1 = Returned (response_api_success (Demo.dump_ioc Demo.ioc_a))
  ∧ db run.2 = db Demo.world
  ∧ dirty run.2 = dirty Demo.world
  ∧ ∃ delta,
      journal run.2 = journal Demo.world ++ delta
      ∧ Forall (λ e, is_mutation e = false) delta.
Proof.
  split; [reflexivity|].
  apply (read_handlers_change_nothing Demo.env DemoCases.cenv 5 1 Demo.world).
  apply list_elem_of_further, list_elem_of_here.
Defined.

(** X17.  [update_ioc] does not compare the case of the path with the
    owning case: an IOC reached through the path of another case is updated
    when the user holds full access on the owning case. *)
Theorem update_ioc_ignores_path_case (env : Env) (case_id identifier : Z)
    (w : World) (stored updated : Ioc.t) (message : string) (rows : Db) :
  let ioc := Ioc.set_ioc_id identifier stored in
  iocs (db w) !! identifier = Some stored →
  Ioc.case_id stored ≠ case_id →
  case_access env (Ioc.case_id stored) [full_access] = true →
  business_iocs_update env ioc (request_get_json env) (db w)
  = (Returned (updated, message), rows) →
  update_ioc env case_id identifier w
  = (Returned (response_api_success (dump_ioc env updated)),
     mkWorld rows (dirty w)
       (journal w ++ [BusinessCalled "iocs_get";
                      AccessChecked (Ioc.case_id stored) [full_access] true;
                      BusinessCalled "iocs_update"])).
Proof.
  intros ioc Hrow Hcase Hacc Hop. subst ioc.
  unfold_rest; unfold_monad. step. rewrite Hrow. step.
  cbn [Ioc.case_id Ioc.set_ioc_id]. rewrite Hacc. step. rewrite Hop. step.
  by rewrite <- !app_assoc.
Qed.

Lemma update_ioc_ignores_path_case_witness :
  iocs (db Demo.world) !! 1 = Some Demo.ioc_a
  ∧ Ioc.case_id Demo.ioc_a ≠ 6
  ∧ (update_ioc Demo.env 6 1 Demo.world).1
    = Returned (response_api_success (Demo.dump_ioc Demo.ioc_a))
  ∧ (delete_case_ioc Demo.env 6 1 Demo.world).1 = Returned response_api_not_found.
Proof.
  assert (Hne : Ioc.case_id Demo.ioc_a ≠ 6) by (intros H; discriminate H).
  split; [reflexivity|]. split; [exact Hne|].
  split; [|reflexivity].
  by rewrite (update_ioc_ignores_path_case Demo.env 6 1 Demo.world Demo.ioc_a
                Demo.ioc_a "updated" (db Demo.world) eq_refl Hne eq_refl eq_refl).
Defined.

(** X18.  Without query parameters the list handlers ask for page 1, ten
    per page, ascending, no filter: the IOC list for the case of the path,
    the case list for the current user and with an empty search value.  A
    query that answers nothing gives "Filtering error".  [get_cases]
    evaluates no access check and leaves the world as it is. *)
Theorem list_defaults (env : Env) (case_id : Z) (w : World) :
  (∀ name, args_int env name = None) →
  (∀ name, args_str env name = None) →
  (∀ name, args_ids env name = None) →
  (∀ name, args_bool env name = None) →
  let iocs_query :=
    mkIocsFilter case_id None None None None None None 1 10 None "asc" in
  let cases_query :=
    mkCasesFilter None None None None None None None None None None None None
                  "" 1 10 (current_user_id env) None "asc" None in
  (case_access env case_id [read_only; full_access] = true →
   (get_filtered_iocs env iocs_query = None →
    (get_case_iocs env case_id w).1
    = Returned (response_api_error "Filtering error" None))
   ∧ (∀ p, get_filtered_iocs env iocs_query = Some p →
           (get_case_iocs env case_id w).1
           = Returned
               (response_api_success
                  (JDict [("total", JInt (Pagination.total p));
                          ("data", JList (dump_ioc env <$> Pagination.items p));
                          ("last_page", JInt (Pagination.pages p));
                          ("current_page", JInt (Pagination.page p));
                          ("next_page",
                           if Pagination.has_next p
                           then JInt (Pagination.next_num p) else JNull)]))))
  ∧ (get_cases env w).2 = w
  ∧ (get_filtered_cases env cases_query = None →
     (get_cases env w).1 = Returned (response_api_error "Filtering error" None))
  ∧ (∀ p, get_filtered_cases env cases_query = Some p →
          (get_cases env w).1
          = Returned
              (response_api_success
                 (JDict [("total", JInt (Pagination.total p));
                         ("data", JList (dump_case env <$> Pagination.items p));
                         ("last_page", JInt (Pagination.pages p));
                         ("current_page", JInt (Pagination.page p));
                         ("next_page",
                          if Pagination.has_next p
                          then JInt (Pagination.next_num p) else JNull)]))).
Proof.
  intros Hint Hstr Hids Hbool iocs_query cases_query.
  subst iocs_query cases_query.
  unfold get_case_iocs, get_cases, ac_fast_check_current_user_has_case_access.
  unfold_monad. rewrite !Hint, !Hstr, !Hids, !Hbool. cbn [default from_option].
  split; [|split; [|split]].
  - intros Hacc. rewrite Hacc. cbn [negb]. split.
    + intros Hq. by rewrite Hq.
    + intros p Hq. by rewrite Hq.
  - by destruct (get_filtered_cases env _).
  - intros Hq. by rewrite Hq.
  - intros p Hq. by rewrite Hq.
Qed.

Lemma list_defaults_witness :
  let iocs_query := mkIocsFilter 5 None None None None None None 1 10 None "asc" in
  get_filtered_iocs Demo.env iocs_query
  = Some (Pagination.mk [Demo.ioc_a] 11 2 1 true 2)
  ∧ (get_case_iocs Demo.env 5 Demo.world).1
    = Returned
        (response_api_success
           (JDict [("total", JInt 11);
                   ("data", JList [Demo.dump_ioc Demo.ioc_a]);
                   ("last_page", JInt 2);
                   ("current_page", JInt 1);
                   ("next_page", JInt 2)]))
  ∧ (get_cases Demo.env Demo.world).2 = Demo.world.
Proof.
  destruct (list_defaults Demo.env 5 Demo.world
              (λ _, eq_refl) (λ _, eq_refl) (λ _, eq_refl) (λ _, eq_refl))
    as (Hiocs & Hworld & _ & _).
  split; [reflexivity|].
  split; [|exact Hworld].
  destruct (Hiocs eq_refl) as [_ Hpage].
  by rewrite (Hpage _ eq_refl).
Defined.

(** X19.  The IOC list of a case and the handlers that get or delete a
    case by identifier authorize first.  The list and the delete check the
    case of the path before anything else, read-only or full access for
    the list and full access for the delete; getting a case looks it up,
    answers not-found when there is none and checks the case otherwise.
    Everything else comes after that one check, the deletion of the case
    included; data is answered only when it was granted; a refusal ends in
    the access-denied response with rows and session untouched. *)
Theorem more_handlers_authorize_first (env : Env) (cenv : CasesEnv)
    (case_id identifier : Z) :
  authorized_by env [] (λ _, Some case_id) [read_only; full_access]
    (get_case_iocs env case_id)
  ∧ authorized_by env []
      (λ _, (λ _, identifier) <$> get_case cenv identifier)
      [read_only; full_access]
      (case_routes_get env cenv identifier)
  ∧ authorized_by env [] (λ _, Some identifier) [full_access]
      (case_routes_delete env cenv identifier)
  ∧ (∀ w,
       case_access env identifier [full_access] = true →
       journal (case_routes_delete env cenv identifier w).2
       = journal w ++ [AccessChecked identifier [full_access] true;
                       BusinessCalled "cases_delete"]
       ∧ db (case_routes_delete env cenv identifier w).2
         = (business_cases_delete cenv identifier (db w)).2).
Proof.
  split; [|split; [|split]]; intros w.
  - cbn beta iota. unfold_rest; unfold_monad.
    destruct (case_access env case_id _) eqn:Hacc; cbn [negb];
      split_paths; authorized_leaf.
  - unfold_more_rest.
    destruct (get_case cenv identifier) as [case|];
      cbn [fmap option_fmap option_map].
    + unfold_rest; unfold_monad.
      destruct (case_access env identifier _) eqn:Hacc; cbn [negb];
        authorized_leaf.
    + unfold_monad. destruct w. by rewrite app_nil_r.
  - cbn beta iota. unfold_more_rest; unfold_rest; unfold_monad.
    destruct (case_access env identifier _) eqn:Hacc; cbn [negb];
      split_paths; authorized_leaf.
  - intros Hacc. unfold_more_rest; unfold_rest; unfold_monad.
    rewrite Hacc. cbn [negb]. split_paths; step;
      (split; [by rewrite <- ?app_assoc | done]).
Qed.

Lemma more_handlers_authorize_first_witness :
  let run := case_routes_delete Demo.env DemoCases.cenv 5 Demo.world in
  case_access Demo.env 5 [full_access] = true
  ∧ journal run.2
    = journal Demo.world ++ [AccessChecked 5 [full_access] true;
                             BusinessCalled "cases_delete"]
  ∧ db run.2 = (business_cases_delete DemoCases.cenv 5 (db Demo.world)).2.
Proof.
  split; [reflexivity|].
  destruct (more_handlers_authorize_first Demo.env DemoCases.cenv 5 5)
    as (_ & _ & _ & Hdelete).
  apply (Hdelete Demo.world). reflexivity.
Defined.
